(** * The data-pipeline Lambda handler (src/lambda/lambda_function_local.py)

    A shallow embedding of the ETL handler: configuration loading with its
    default, extraction with the two HTTP client paths, the per-source
    transformation, the S3 loader, the run summary and the orchestrating
    [lambda_handler].

    Python values that come out of [json.loads] are modelled by [json];
    Python's [None] is [JNull]; a Python [str] is a [string], one character
    per code point.  The characters 0xD8 to 0xDF stand for the surrogate
    code points U+D800, U+D900, ..., U+DF00, which [json.loads] lets into
    keys and strings and which UTF-8 cannot encode; every other character
    can be encoded.  Exceptions are values of [exn]; a pure
    computation that may raise has type [py A], a computation that also reads
    the clock, writes to the bucket or mutates the [results] dictionary has
    type [M A].  What the outside world answers (secret store, HTTP servers,
    S3, clock) is an [Env]; the parts of the Python runtime that are not
    computed here (json codec, md5, repr, the slow path of float parsing) are
    a [Runtime]. *)

From Stdlib Require Import ZArith List String Ascii Bool Lia.
From Stdlib Require Import Floats Uint63 DecimalString.
Import ListNotations.

Set Warnings "-inexact-float,-register-all".

Open Scope string_scope.
Open Scope Z_scope.

(* ================================================================== *)
(** ** Values *)

Inductive json : Type :=
| JNull
| JBool (b : bool)
| JInt (z : Z)
| JFloat (f : float)
| JStr (s : string)
| JList (l : list json)
| JDict (kvs : list (string * json)).

(** A Python dict keeps insertion order, so it is an association list; a
    well-formed one has no repeated key. *)
Definition dict := list (string * json).

Fixpoint dict_get (k : string) (d : dict) : option json :=
  match d with
  | [] => None
  | (k', v) :: t => if String.eqb k k' then Some v else dict_get k t
  end.

Fixpoint dict_set (k : string) (v : json) (d : dict) : dict :=
  match d with
  | [] => [(k, v)]
  | (k', v') :: t =>
      if String.eqb k k' then (k, v) :: t else (k', v') :: dict_set k v t
  end.

Definition dict_has (k : string) (d : dict) : bool :=
  match dict_get k d with Some _ => true | None => false end.

Definition keys (d : dict) : list string := map fst d.

(** Python truthiness, as [if raw_data:] and [if not config:] use it. *)
Definition truthy (v : json) : bool :=
  match v with
  | JNull => false
  | JBool b => b
  | JInt z => negb (z =? 0)
  | JFloat f => negb (PrimFloat.eqb f 0%float)
  | JStr s => negb (String.eqb s "")
  | JList l => match l with [] => false | _ => true end
  | JDict d => match d with [] => false | _ => true end
  end.

(* ================================================================== *)
(** ** Exceptions and the two monads *)

Inductive exn_class : Type :=
| ImportError | KeyError | TypeError | AttributeError | ValueError
| OverflowError | UnicodeDecodeError | UnicodeEncodeError | PlainException
| ClientError.

(** [exn_str] is what [str(e)] gives. *)
Record exn : Type := mkExn { exn_cls : exn_class; exn_str : string }.

Definition is_ImportError (e : exn) : bool :=
  match exn_cls e with ImportError => true | _ => false end.

Inductive py (A : Type) : Type :=
| Ok (a : A)
| Raise (e : exn).
Arguments Ok {A} a.
Arguments Raise {A} e.

Definition bind_py {A B} (c : py A) (k : A -> py B) : py B :=
  match c with Ok a => k a | Raise e => Raise e end.

Notation "x <- c ;; k" := (bind_py c (fun x => k))
  (at level 61, c at next level, right associativity).

Definition raises {A} (c : py A) : bool :=
  match c with Ok _ => false | Raise _ => true end.

(* ================================================================== *)
(** ** Python built-ins on JSON values *)

Definition type_name (v : json) : string :=
  match v with
  | JNull => "NoneType" | JBool _ => "bool" | JInt _ => "int"
  | JFloat _ => "float" | JStr _ => "str" | JList _ => "list"
  | JDict _ => "dict"
  end.

(** [obj.get(key, default)]: only a dict has the method. *)
Definition py_get (obj : json) (key : string) (default : json) : py json :=
  match obj with
  | JDict d => Ok (match dict_get key d with Some v => v | None => default end)
  | _ => Raise (mkExn AttributeError
                  ("'" ++ type_name obj ++ "' object has no attribute 'get'"))
  end.

(** [obj[key]] for a string key. *)
Definition py_getitem (obj : json) (key : string) : py json :=
  match obj with
  | JDict d =>
      match dict_get key d with
      | Some v => Ok v
      | None => Raise (mkExn KeyError ("'" ++ key ++ "'"))
      end
  | JList _ => Raise (mkExn TypeError "list indices must be integers or slices, not str")
  | JStr _ => Raise (mkExn TypeError "string indices must be integers, not 'str'")
  | _ => Raise (mkExn TypeError ("'" ++ type_name obj ++ "' object is not subscriptable"))
  end.

Definition is_str (k : string) (v : json) : bool :=
  match v with JStr s => String.eqb k s | _ => false end.

Definition str_contains (pat s : string) : bool :=
  match index 0 pat s with Some _ => true | None => false end.

(** [key in obj] for a string key. *)
Definition py_contains (key : string) (obj : json) : py bool :=
  match obj with
  | JDict d => Ok (dict_has key d)
  | JList l => Ok (existsb (is_str key) l)
  | JStr s => Ok (str_contains key s)
  | _ => Raise (mkExn TypeError
                  ("argument of type '" ++ type_name obj ++ "' is not iterable"))
  end.

(** [len(obj)]. *)
Definition py_len (obj : json) : py Z :=
  match obj with
  | JDict d => Ok (Z.of_nat (List.length d))
  | JList l => Ok (Z.of_nat (List.length l))
  | JStr s => Ok (Z.of_nat (String.length s))
  | _ => Raise (mkExn TypeError
                  ("object of type '" ++ type_name obj ++ "' has no len()"))
  end.

(** [obj.items()]. *)
Definition py_items (obj : json) : py dict :=
  match obj with
  | JDict d => Ok d
  | _ => Raise (mkExn AttributeError
                  ("'" ++ type_name obj ++ "' object has no attribute 'items'"))
  end.

Fixpoint chars (s : string) : list json :=
  match s with
  | EmptyString => []
  | String c t => JStr (String c EmptyString) :: chars t
  end.

(** What [enumerate(obj)] walks over. *)
Definition py_iter (obj : json) : py (list json) :=
  match obj with
  | JList l => Ok l
  | JDict d => Ok (map JStr (keys d))
  | JStr s => Ok (chars s)
  | _ => Raise (mkExn TypeError
                  ("'" ++ type_name obj ++ "' object is not iterable"))
  end.

(** [l[:stop]] on a list, for a stop that is [None], an int or a bool. *)
Definition slice_stop (len : nat) (stop : json) : py nat :=
  match stop with
  | JNull => Ok len
  | JInt z => Ok (if z <? 0 then Z.to_nat (Z.of_nat len + z) else Z.to_nat z)
  | JBool b => Ok (if b then 1%nat else 0%nat)
  | _ => Raise (mkExn TypeError
        "slice indices must be integers or None or have an __index__ method")
  end.

Definition py_list_upto (l : list json) (stop : json) : py (list json) :=
  n <- slice_stop (List.length l) stop ;;
  Ok (firstn n l).

(** [obj[:200]]: strings and lists can be sliced. *)
Definition py_slice_200 (obj : json) : py json :=
  match obj with
  | JStr s => Ok (JStr (substring 0 200 s))
  | JList l => Ok (JList (firstn 200 l))
  | JDict _ => Raise (mkExn TypeError "unhashable type: 'slice'")
  | _ => Raise (mkExn TypeError
                  ("'" ++ type_name obj ++ "' object is not subscriptable"))
  end.

(** *** [float(x)]

    A plain decimal [sign digits . digits] with at most 15 digits in all is
    converted as CPython's fast path does it: both the digits and the power
    of ten are exact binary64 values and one IEEE division rounds once.  Any
    other text goes to the runtime's [strtod]. *)

Definition digit_of (c : ascii) : option Z :=
  let n := Z.of_nat (nat_of_ascii c) in
  if (48 <=? n) && (n <=? 57) then Some (n - 48) else None.

(** Leading digits of [s]: their value on top of [acc], how many, the rest. *)
Fixpoint read_digits (s : string) (acc : Z) (n : nat) : Z * nat * string :=
  match s with
  | EmptyString => (acc, n, s)
  | String c t =>
      match digit_of c with
      | Some d => read_digits t (10 * acc + d) (S n)
      | None => (acc, n, s)
      end
  end.

(** [Some (negative, mantissa, fractional digits)] for a plain decimal. *)
Definition plain_decimal (s : string) : option (bool * Z * nat) :=
  let '(neg, body) :=
    match s with
    | String "-" t => (true, t)
    | String "+" t => (false, t)
    | _ => (false, s)
    end in
  let '(ip, ni, rest) := read_digits body 0 0 in
  match ni, rest with
  | O, _ => None
  | _, EmptyString => Some (neg, ip, O)
  | _, String "." frac =>
      let '(m, nf, rest') := read_digits frac ip 0 in
      match nf, rest' with
      | S _, EmptyString => if (ni + nf <=? 15)%nat then Some (neg, m, nf) else None
      | _, _ => None
      end
  | _, _ => None
  end.

Definition exact_float (z : Z) : float := PrimFloat.of_uint63 (Uint63.of_Z z).

Definition float_fast_path (s : string) : option float :=
  match plain_decimal s with
  | Some (neg, m, k) =>
      if m <? 10 ^ 15 then
        let q := PrimFloat.div (exact_float m) (exact_float (10 ^ Z.of_nat k)) in
        Some (if neg then PrimFloat.opp q else q)
      else None
  | None => None
  end.

(** The rest of the Python runtime, not computed in this development. *)
Record Runtime : Type := {
  json_loads : string -> option json;      (* None: JSONDecodeError *)
  json_dumps : json -> string;             (* json.dumps(v), also with default=str *)
  json_dumps_indent : json -> string;      (* json.dumps(v, indent=2, default=str) *)
  md5_hexdigest : string -> string;        (* hashlib.md5(s.encode()).hexdigest() *)
  py_repr : json -> string;                (* repr(v); str(v) when v is not a str *)
  strtod : string -> option float;         (* float(s) off the fast path *)
  int_to_double : Z -> option float;       (* float(n) for a large n; None: OverflowError *)
  utf8_decode : string -> option string    (* bytes.decode('utf-8') *)
}.

Section Builtins.

Variable rt : Runtime.

Definition float_of_string (s : string) : option float :=
  match float_fast_path s with
  | Some f => Some f
  | None => strtod rt s
  end.

Definition py_float (v : json) : py float :=
  match v with
  | JFloat f => Ok f
  | JInt z =>
      if Z.abs z <? 2 ^ 53 then
        Ok (if z <? 0 then PrimFloat.opp (exact_float (- z)) else exact_float z)
      else
        match int_to_double rt z with
        | Some f => Ok f
        | None => Raise (mkExn OverflowError "int too large to convert to float")
        end
  | JBool b => Ok (if b then 1%float else 0%float)
  | JStr s =>
      match float_of_string s with
      | Some f => Ok f
      | None => Raise (mkExn ValueError
                         ("could not convert string to float: "
                            ++ py_repr rt (JStr s)))
      end
  | _ => Raise (mkExn TypeError
      ("float() argument must be a string or a real number, not '"
         ++ type_name v ++ "'"))
  end.

(** [str(v)], as an f-string formats a value. *)
Definition py_str (v : json) : string :=
  match v with JStr s => s | _ => py_repr rt v end.

End Builtins.

(* ================================================================== *)
(** ** The outside world and the machine state *)

(** One reading of [datetime.now()], by the renderings the handler uses. *)
Record datetime : Type := {
  isoformat : string;          (* .isoformat() *)
  ymd : string;                (* .strftime('%Y-%m-%d') *)
  ymd_hms : string             (* .strftime('%Y%m%d_%H%M%S') *)
}.

(** A response of either HTTP client: [status_code] and [text] of requests,
    [status] and [data] of urllib3. *)
Record http_response : Type := {
  status_code : Z;
  text : string
}.

Record s3_object : Type := {
  obj_bucket : option string;
  obj_key : string;
  obj_body : string;
  obj_content_type : string;
  obj_metadata : list (string * string)
}.

Record Env : Type := {
  BUCKET_NAME : option string;
  SECRET_NAME : string;
  (** the n-th reading of the clock *)
  clock : nat -> datetime;
  (** [(end - start).total_seconds()] *)
  total_seconds : datetime -> datetime -> float;
  (** [secrets_client.get_secret_value(SecretId=...)]: the response's
      [SecretString] when it has one *)
  get_secret_value : string -> py (option string);
  (** whether [import requests] succeeds *)
  requests_importable : bool;
  (** [requests.get(url, params=...)] *)
  requests_get : json -> dict -> py http_response;
  (** [http_local.request('GET', url)] of urllib3 *)
  urllib3_request : json -> py http_response;
  (** [s3_client.put_object]: the exception it raises, if it does *)
  put_object_error : s3_object -> option exn
}.

(** The [results] dictionary of [lambda_handler]. *)
Record Results : Type := {
  execution_id : string;
  start_time : string;
  end_time : option string;
  duration_seconds : option float;
  success : bool;
  sources_processed : list string;
  total_records : Z;
  errors : list string;
  files_created : list string
}.

Record State : Type := {
  ticks : nat;                 (* clock readings so far *)
  bucket : list s3_object;     (* objects written, latest first *)
  results : Results
}.

(** Stateful computations that may raise; the state survives an exception. *)
Definition M (A : Type) : Type := State -> py A * State.

Definition ret {A} (a : A) : M A := fun st => (Ok a, st).
Definition raise {A} (e : exn) : M A := fun st => (Raise e, st).
Definition lift {A} (c : py A) : M A := fun st => (c, st).

Definition bind {A B} (c : M A) (k : A -> M B) : M B :=
  fun st =>
    match c st with
    | (Ok a, st') => k a st'
    | (Raise e, st') => (Raise e, st')
    end.

(** [try: c  except Exception as e: h e] *)
Definition try_except {A} (c : M A) (h : exn -> M A) : M A :=
  fun st =>
    match c st with
    | (Ok a, st') => (Ok a, st')
    | (Raise e, st') => h e st'
    end.

Notation "x <~ c ;; k" := (bind c (fun x => k))
  (at level 61, c at next level, right associativity).
Notation "c ;;; k" := (bind c (fun _ => k))
  (at level 61, right associativity).

Definition get_results : M Results := fun st => (Ok (results st), st).

Definition update_results (f : Results -> Results) : M unit :=
  fun st => (Ok tt, {| ticks := ticks st; bucket := bucket st;
                       results := f (results st) |}).

Definition add_source_processed (n : string) (r : Results) : Results :=
  {| execution_id := execution_id r; start_time := start_time r;
     end_time := end_time r; duration_seconds := duration_seconds r;
     success := success r;
     sources_processed := sources_processed r ++ [n];
     total_records := total_records r; errors := errors r;
     files_created := files_created r |}.

Definition add_total_records (k : Z) (r : Results) : Results :=
  {| execution_id := execution_id r; start_time := start_time r;
     end_time := end_time r; duration_seconds := duration_seconds r;
     success := success r; sources_processed := sources_processed r;
     total_records := total_records r + k; errors := errors r;
     files_created := files_created r |}.

Definition add_file_created (p : string) (r : Results) : Results :=
  {| execution_id := execution_id r; start_time := start_time r;
     end_time := end_time r; duration_seconds := duration_seconds r;
     success := success r; sources_processed := sources_processed r;
     total_records := total_records r; errors := errors r;
     files_created := files_created r ++ [p] |}.

Definition add_error (msg : string) (r : Results) : Results :=
  {| execution_id := execution_id r; start_time := start_time r;
     end_time := end_time r; duration_seconds := duration_seconds r;
     success := success r; sources_processed := sources_processed r;
     total_records := total_records r; errors := errors r ++ [msg];
     files_created := files_created r |}.

Definition set_success (b : bool) (r : Results) : Results :=
  {| execution_id := execution_id r; start_time := start_time r;
     end_time := end_time r; duration_seconds := duration_seconds r;
     success := b; sources_processed := sources_processed r;
     total_records := total_records r; errors := errors r;
     files_created := files_created r |}.

Definition set_end (t : string) (d : float) (r : Results) : Results :=
  {| execution_id := execution_id r; start_time := start_time r;
     end_time := Some t; duration_seconds := Some d;
     success := success r; sources_processed := sources_processed r;
     total_records := total_records r; errors := errors r;
     files_created := files_created r |}.

Definition opt_json {A} (f : A -> json) (o : option A) : json :=
  match o with Some a => f a | None => JNull end.

(** The [results] dictionary as the value [json.dumps] receives. *)
Definition results_json (r : Results) : json :=
  JDict [ ("execution_id", JStr (execution_id r));
          ("start_time", JStr (start_time r));
          ("end_time", opt_json JStr (end_time r));
          ("duration_seconds", opt_json JFloat (duration_seconds r));
          ("success", JBool (success r));
          ("sources_processed", JList (map JStr (sources_processed r)));
          ("total_records", JInt (total_records r));
          ("errors", JList (map JStr (errors r)));
          ("files_created", JList (map JStr (files_created r))) ].

Definition str_of_nat (n : nat) : string :=
  NilEmpty.string_of_uint (Nat.to_uint n).

Definition str_of_Z (z : Z) : string :=
  NilEmpty.string_of_int (Z.to_int z).

(** *** [s.encode()]

    The encoding to UTF-8 fails on a surrogate; the message names the first
    one, or the positions of the first run of them. *)

Definition is_surrogate (c : ascii) : bool :=
  let n := nat_of_ascii c in
  ((216 <=? n) && (n <=? 223))%nat.

(** The escape Python prints for the surrogate a character stands for. *)
Definition surrogate_escape (c : ascii) : string :=
  "\ud"
    ++ match (nat_of_ascii c - 216)%nat with
       | 0%nat => "8" | 1%nat => "9" | 2%nat => "a" | 3%nat => "b"
       | 4%nat => "c" | 5%nat => "d" | 6%nat => "e" | _ => "f"
       end
    ++ "00".

(** How many surrogates [s] starts with. *)
Fixpoint surrogate_run (s : string) : nat :=
  match s with
  | EmptyString => O
  | String c t => if is_surrogate c then S (surrogate_run t) else O
  end.

(** The first surrogate of [s] from position [pos] on: where it is, which
    it is, and how long the run is that it starts. *)
Fixpoint find_surrogate (s : string) (pos : nat)
    : option (nat * ascii * nat) :=
  match s with
  | EmptyString => None
  | String c t =>
      if is_surrogate c then Some (pos, c, S (surrogate_run t))
      else find_surrogate t (S pos)
  end.

Definition py_encode (s : string) : py unit :=
  match find_surrogate s 0 with
  | None => Ok tt
  | Some (i, c, len) =>
      Raise (mkExn UnicodeEncodeError
        ("'utf-8' codec can't encode "
           ++ (if (len =? 1)%nat
               then "character '" ++ surrogate_escape c ++ "' in position "
                      ++ str_of_nat i
               else "characters in position " ++ str_of_nat i ++ "-"
                      ++ str_of_nat (i + len - 1))
           ++ ": surrogates not allowed"))
  end.

(* ================================================================== *)
(** ** The handler's functions *)

Section Pipeline.

Variable rt : Runtime.
Variable env : Env.

Definition datetime_now : M datetime :=
  fun st => (Ok (clock env (ticks st)),
             {| ticks := S (ticks st); bucket := bucket st;
                results := results st |}).

(** *** transform_data *)

Definition marketing_product (record : json) : py json :=
  id <- py_get record "id" JNull ;;
  title <- py_get record "title" (JStr "") ;;
  p <- py_get record "price" (JInt 0) ;;
  price <- py_float rt p ;;
  category <- py_get record "category" (JStr "") ;;
  d <- py_get record "description" (JStr "") ;;
  description <- py_slice_200 d ;;
  image <- py_get record "image" (JStr "") ;;
  rating <- py_get record "rating" (JDict []) ;;
  Ok (JDict [ ("id", id); ("title", title); ("price", JFloat price);
              ("category", category); ("description", description);
              ("image", image); ("rating", rating) ]).

Definition sales_sale (record : json) : py json :=
  id <- py_get record "id" JNull ;;
  user_id <- py_get record "userId" JNull ;;
  title <- py_get record "title" (JStr "") ;;
  b <- py_get record "body" (JStr "") ;;
  body <- py_slice_200 b ;;
  Ok (JDict [ ("id", id); ("user_id", user_id); ("title", title);
              ("body", body) ]).

(** [None] when the record has no ['name']: no ['customer'] key is set. *)
Definition crm_customer (record : json) : py (option json) :=
  has_name <- py_contains "name" record ;;
  if has_name : bool then
    name <- py_getitem record "name" ;;
    first <- py_get name "first" (JStr "") ;;
    last <- py_get name "last" (JStr "") ;;
    first' <- py_get name "first" (JStr "") ;;
    last' <- py_get name "last" (JStr "") ;;
    email <- py_get record "email" (JStr "") ;;
    phone <- py_get record "phone" (JStr "") ;;
    location <- py_get record "location" (JDict []) ;;
    country <- py_get location "country" (JStr "") ;;
    location' <- py_get record "location" (JDict []) ;;
    city <- py_get location' "city" (JStr "") ;;
    registered <- py_get record "registered" (JDict []) ;;
    date <- py_get registered "date" (JStr "") ;;
    Ok (Some (JDict
      [ ("first_name", first); ("last_name", last);
        ("full_name", JStr (py_str rt first' ++ " " ++ py_str rt last'));
        ("email", email); ("phone", phone); ("country", country);
        ("city", city); ("registered_date", date) ]))
  else Ok None.

Definition envelope_of (source_name record_id : string) (t1 t2 : datetime)
    (record : json) : dict :=
  [ ("record_id", JStr record_id);
    ("source", JStr source_name);
    ("extracted_at", JStr (isoformat t1));
    ("extracted_date", JStr (ymd t2));
    ("raw_data", record) ].

(** The body of the loop of [transform_data], for one record.  Of the
    parts of [unique_string] only the source name can hold a surrogate (the
    index, the ISO time and what [json.dumps] gives are ASCII), so
    [unique_string.encode()] fails when and where the encoding of the source
    name does. *)
Definition transform_record (source_name : string) (idx : nat) (record : json)
    : M json :=
  t0 <~ datetime_now ;;
  let unique_string :=
    source_name ++ "_" ++ str_of_nat idx ++ "_" ++ isoformat t0 ++ "_"
      ++ json_dumps rt record in
  lift (py_encode source_name) ;;;
  let record_id := substring 0 12 (md5_hexdigest rt unique_string) in
  t1 <~ datetime_now ;;
  t2 <~ datetime_now ;;
  let transformed_record := envelope_of source_name record_id t1 t2 record in
  if String.eqb source_name "marketing" then
    product <~ lift (marketing_product record) ;;
    ret (JDict (dict_set "product" product transformed_record))
  else if String.eqb source_name "sales" then
    sale <~ lift (sales_sale record) ;;
    ret (JDict (dict_set "sale" sale transformed_record))
  else if String.eqb source_name "crm" then
    customer <~ lift (crm_customer record) ;;
    ret (JDict (match customer with
                | Some c => dict_set "customer" c transformed_record
                | None => transformed_record
                end))
  else ret (JDict transformed_record).

Fixpoint transform_loop (source_name : string) (idx : nat)
    (records transformed : list json) : M (list json) :=
  match records with
  | [] => ret transformed
  | record :: rest =>
      t <~ transform_record source_name idx record ;;
      transform_loop source_name (S idx) rest (transformed ++ [t])
  end.

Definition transform_data (source_name : string) (raw_data : json)
    : M (list json) :=
  records <~ lift (py_iter raw_data) ;;
  transform_loop source_name 0 records [].

(** *** extract_data_safe *)

Definition default_limit (config : json) : py json :=
  py_get config "default_limit" (JInt 10).

(** URL and query parameters of the requests path. *)
Definition requests_target (source_name : string) (config : json)
    : py (json * dict) :=
  if String.eqb source_name "marketing" then
    limit <- default_limit config ;;
    Ok (JStr "https://fakestoreapi.com/products", [("limit", limit)])
  else if String.eqb source_name "sales" then
    limit <- default_limit config ;;
    Ok (JStr "https://jsonplaceholder.typicode.com/posts", [("_limit", limit)])
  else if String.eqb source_name "crm" then
    limit <- default_limit config ;;
    Ok (JStr "https://randomuser.me/api/", [("results", limit)])
  else
    url <- py_getitem config "url" ;;
    Ok (url, []).

(** Lines 241-255: the response formats of the requests path. *)
Definition normalize_requests (config data : json) : py json :=
  match data with
  | JDict d =>
      match dict_get "results" d with
      | Some v => Ok v
      | None =>
          match dict_get "data" d with
          | Some v => Ok v
          | None =>
              match dict_get "products" d with
              | Some v => Ok v
              | None => Ok (JList [data])
              end
          end
      end
  | JList l =>
      limit <- default_limit config ;;
      l' <- py_list_upto l limit ;;
      Ok (JList l')
  | _ => Ok (JList [data])
  end.

(** Lines 310-320: the response formats of the urllib3 path. *)
Definition normalize_urllib3 (config data : json) : py json :=
  match data with
  | JDict d =>
      match dict_get "results" d with
      | Some v => Ok v
      | None =>
          match dict_get "data" d with
          | Some v => Ok v
          | None => Ok (JList [data])
          end
      end
  | JList l =>
      limit <- default_limit config ;;
      l' <- py_list_upto l limit ;;
      Ok (JList l')
  | _ => Ok (JList [data])
  end.

(** The [try] body of lines 187-255; [JNull] is the [return None]. *)
Definition extract_with_requests (source_name : string) (config : json)
    : py json :=
  _ <- (if requests_importable env then Ok tt
        else Raise (mkExn ImportError "No module named 'requests'")) ;;
  target <- requests_target source_name config ;;
  response <- requests_get env (fst target) (snd target) ;;
  if negb (status_code response =? 200) then Ok JNull
  else
    match json_loads rt (text response) with
    | None => Ok JNull
    | Some data => normalize_requests config data
    end.

Definition urllib3_url (source_name : string) (config : json) : py json :=
  if String.eqb source_name "marketing" then
    limit <- default_limit config ;;
    Ok (JStr ("https://fakestoreapi.com/products?limit=" ++ py_str rt limit))
  else if String.eqb source_name "sales" then
    limit <- default_limit config ;;
    Ok (JStr ("https://jsonplaceholder.typicode.com/posts?_limit="
                ++ py_str rt limit))
  else if String.eqb source_name "crm" then
    limit <- default_limit config ;;
    Ok (JStr ("https://randomuser.me/api/?results=" ++ py_str rt limit))
  else py_getitem config "url".

(** The inner [try] body of lines 261-320. *)
Definition extract_with_urllib3 (source_name : string) (config : json)
    : py json :=
  url <- urllib3_url source_name config ;;
  response <- urllib3_request env url ;;
  if negb (status_code response =? 200) then Ok JNull
  else
    match utf8_decode rt (text response) with
    | None => Raise (mkExn UnicodeDecodeError
                       "'utf-8' codec can't decode bytes")
    | Some s =>
        match json_loads rt s with
        | None => Ok JNull
        | Some data => normalize_urllib3 config data
        end
    end.

(** [except ImportError] switches to urllib3, whose own [except Exception]
    returns [None]; the outer [except Exception] returns [None]. *)
Definition extract_data_safe (source_name : string) (config : json)
    : py json :=
  match extract_with_requests source_name config with
  | Ok v => Ok v
  | Raise e =>
      if is_ImportError e then
        match extract_with_urllib3 source_name config with
        | Ok v => Ok v
        | Raise _ => Ok JNull
        end
      else Ok JNull
  end.

(** *** load_to_s3 and save_execution_summary *)

Definition put_object (o : s3_object) : M unit :=
  fun st =>
    match put_object_error env o with
    | Some e => (Raise e, st)
    | None => (Ok tt, {| ticks := ticks st; bucket := o :: bucket st;
                         results := results st |})
    end.

Definition load_to_s3 (source_name : string) (data : list json) : M string :=
  d0 <~ datetime_now ;;
  let current_date := ymd d0 in
  d1 <~ datetime_now ;;
  let timestamp := ymd_hms d1 in
  let s3_key :=
    "data/" ++ source_name ++ "/date=" ++ current_date ++ "/"
      ++ source_name ++ "_" ++ timestamp ++ ".json" in
  d2 <~ datetime_now ;;
  let metadata :=
    [ ("source", source_name);
      ("record_count", str_of_nat (List.length data));
      ("extracted_date", current_date);
      ("extracted_timestamp", isoformat d2) ] in
  put_object {| obj_bucket := BUCKET_NAME env; obj_key := s3_key;
                obj_body := json_dumps_indent rt (JList data);
                obj_content_type := "application/json";
                obj_metadata := metadata |} ;;;
  ret s3_key.

Definition len_json (n : nat) : json := JInt (Z.of_nat n).

Definition save_execution_summary (config : json) : M string :=
  r <~ get_results ;;
  d0 <~ datetime_now ;;
  d1 <~ datetime_now ;;
  configured <~ lift (ds <- py_get config "data_sources" (JDict []) ;;
                      py_len ds) ;;
  let summary :=
    JDict
      [ ("execution_id", JStr (execution_id r));
        ("execution_date", JStr (ymd d0));
        ("execution_time", JStr (isoformat d1));
        ("duration_seconds", opt_json JFloat (duration_seconds r));
        ("success", JBool (success r));
        ("statistics", JDict
           [ ("sources_configured", JInt configured);
             ("sources_processed", len_json (List.length (sources_processed r)));
             ("total_records", JInt (total_records r));
             ("files_created", len_json (List.length (files_created r)));
             ("errors", len_json (List.length (errors r))) ]);
        ("sources_processed", JList (map JStr (sources_processed r)));
        ("files_created", JList (map JStr (files_created r)));
        ("errors", JList (map JStr (errors r))) ] in
  d2 <~ datetime_now ;;
  let current_date := ymd d2 in
  let s3_key :=
    "metadata/executions/date=" ++ current_date ++ "/execution_"
      ++ execution_id r ++ ".json" in
  put_object {| obj_bucket := BUCKET_NAME env; obj_key := s3_key;
                obj_body := json_dumps_indent rt summary;
                obj_content_type := "application/json";
                obj_metadata := [] |} ;;;
  ret s3_key.

(** *** get_configuration *)

Definition source_entry (name url : string) : json :=
  JDict [ ("name", JStr name); ("url", JStr url); ("default_limit", JInt 10) ].

Definition default_configuration : json :=
  JDict
    [ ("data_sources", JDict
        [ ("marketing",
           source_entry "FakeStore API" "https://fakestoreapi.com/products");
          ("sales",
           source_entry "JSONPlaceholder"
             "https://jsonplaceholder.typicode.com/posts");
          ("crm",
           source_entry "RandomUser API" "https://randomuser.me/api/") ]) ].

(** The [try] body of [get_configuration]. *)
Definition read_secret : py json :=
  response <- get_secret_value env (SECRET_NAME env) ;;
  secret_string <-
    match response with
    | Some s => Ok s
    | None => Raise (mkExn KeyError "'SecretString'")
    end ;;
  match json_loads rt secret_string with
  | Some config => Ok config
  | None => Raise (mkExn ValueError "Expecting value")
  end.

(** Both branches return, so the function has a value and never raises. *)
Definition get_configuration : json :=
  match read_secret with
  | Ok config => config
  | Raise _ => default_configuration
  end.

(** *** lambda_handler *)

(** A context object that has a [request_id]; what the handler does with
    an object that has none is [lambda_handler_on], after this section. *)
Record Context : Type := { request_id : string }.

Record Response : Type := {
  statusCode : Z;
  body : string;
  headers : list (string * string)
}.

Definition initial_results (context : option Context) (start : datetime)
    : Results :=
  {| execution_id :=
       match context with Some c => request_id c | None => "local-test" end;
     start_time := isoformat start;
     end_time := None;
     duration_seconds := None;
     success := true;
     sources_processed := [];
     total_records := 0;
     errors := [];
     files_created := [] |}.

(** Lines 87-111: one turn of the loop over the data sources. *)
Definition process_source (source_name : string) (source_config : json)
    : M unit :=
  try_except
    (raw_data <~ lift (extract_data_safe source_name source_config) ;;
     if truthy raw_data then
       transformed_data <~ transform_data source_name raw_data ;;
       file_path <~ load_to_s3 source_name transformed_data ;;
       update_results (add_source_processed source_name) ;;;
       update_results
         (add_total_records (Z.of_nat (List.length transformed_data))) ;;;
       update_results (add_file_created file_path)
     else ret tt)
    (fun e =>
       update_results
         (add_error ("Error processing " ++ source_name ++ ": " ++ exn_str e))).

Fixpoint process_sources (items : dict) : M unit :=
  match items with
  | [] => ret tt
  | (source_name, source_config) :: rest =>
      process_source source_name source_config ;;;
      process_sources rest
  end.

(** [len(config['data_sources'])], as the two log lines evaluate it. *)
Definition count_data_sources (config : json) : py Z :=
  ds <- py_getitem config "data_sources" ;;
  py_len ds.

(** Lines 71-116: the body of the outer [try], after [config] is bound. *)
Definition run_pipeline (config : json) : M unit :=
  (if negb (truthy config)
   then raise (mkExn PlainException "Failed to load configuration")
   else ret tt) ;;;
  lift (count_data_sources config) ;;;
  items <~ lift (ds <- py_getitem config "data_sources" ;; py_items ds) ;;
  process_sources items ;;;
  summary_path <~ save_execution_summary config ;;
  update_results (add_file_created summary_path).

(** Lines 118-122. *)
Definition fatal (e : exn) : M unit :=
  update_results (set_success false) ;;;
  update_results (add_error ("Fatal error: " ++ exn_str e)).

Definition response_of (r : Results) : Response :=
  {| statusCode := if success r then 200 else 500;
     body := json_dumps rt (results_json r);
     headers := [("Content-Type", "application/json")] |}.

Definition lambda_handler_m (event : json) (context : option Context)
    : M Response :=
  start <~ datetime_now ;;
  update_results (fun _ => initial_results context start) ;;;
  let config := get_configuration in
  try_except (run_pipeline config) fatal ;;;
  finish <~ datetime_now ;;
  update_results (set_end (isoformat finish) (total_seconds env start finish)) ;;;
  (* line 135, outside the try *)
  lift (if truthy config then count_data_sources config else Ok 0) ;;;
  r <~ get_results ;;
  ret (response_of r).

(** The machine before the call: no clock reading yet, nothing written. *)
Definition boot : State :=
  {| ticks := 0; bucket := [];
     results := {| execution_id := ""; start_time := ""; end_time := None;
                   duration_seconds := None; success := true;
                   sources_processed := []; total_records := 0;
                   errors := []; files_created := [] |} |}.

(** What the call returns or raises. *)
Definition lambda_handler (event : json) (context : option Context)
    : py Response :=
  fst (lambda_handler_m event context boot).

(** The [results] dictionary when the call ends. *)
Definition final_results (event : json) (context : option Context) : Results :=
  results (snd (lambda_handler_m event context boot)).

End Pipeline.

Arguments lambda_handler rt env event context : simpl never.
Arguments final_results rt env event context : simpl never.

(** *** The context argument in general

    [lambda_handler] above is the handler called with a context that is
    [None] or an object that has a [request_id], as the [MockContext] of
    the source has.  Line 59 reads [context.request_id] outside every
    [try]: called with any other object that is not falsy, the handler
    raises there, the clock read once and nothing else done. *)

Inductive context_object : Type :=
| NoContext                          (* None, or another falsy object *)
| ContextWithout (class_name : string)   (* an object with no request_id *)
| ContextWith (c : Context).

Definition context_of (context : option Context) : context_object :=
  match context with
  | None => NoContext
  | Some c => ContextWith c
  end.

Definition lambda_handler_on_m (rt : Runtime) (env : Env) (event : json)
    (context : context_object) : M Response :=
  match context with
  | NoContext => lambda_handler_m rt env event None
  | ContextWith c => lambda_handler_m rt env event (Some c)
  | ContextWithout class_name =>
      start <~ datetime_now env ;;
      raise (mkExn AttributeError
               ("'" ++ class_name ++ "' object has no attribute 'request_id'"))
  end.

(** What the call returns or raises, for any context object. *)
Definition lambda_handler_on (rt : Runtime) (env : Env) (event : json)
    (context : context_object) : py Response :=
  fst (lambda_handler_on_m rt env event context boot).

(** The state when that call ends. *)
Definition final_state_on (rt : Runtime) (env : Env) (event : json)
    (context : context_object) : State :=
  snd (lambda_handler_on_m rt env event context boot).

(* ================================================================== *)
(** ** A runtime and some worlds to run the handler in *)

Module Sample.

(** The double-quote character, for JSON texts. *)
Definition dq : string := String (ascii_of_nat 34) EmptyString.

(** [{"foo": 1}] *)
Definition text_no_sources : string := "{" ++ dq ++ "foo" ++ dq ++ ": 1}".
(** [{"products": [1, 2]}] *)
Definition text_products : string := "{" ++ dq ++ "products" ++ dq ++ ": [1, 2]}".
(** [[{"id": 1}, {"id": 2}]] *)
Definition text_two_records : string :=
  "[{" ++ dq ++ "id" ++ dq ++ ": 1}, {" ++ dq ++ "id" ++ dq ++ ": 2}]".

(** A codec that knows the texts above, a fixed digest and no slow paths. *)
Definition runtime : Runtime :=
  {| json_loads := fun s =>
       if String.eqb s text_no_sources then Some (JDict [("foo", JInt 1)])
       else if String.eqb s text_products
       then Some (JDict [("products", JList [JInt 1; JInt 2])])
       else if String.eqb s text_two_records
       then Some (JList [JDict [("id", JInt 1)]; JDict [("id", JInt 2)]])
       else None;
     json_dumps := fun _ => "<json>";
     json_dumps_indent := fun _ => "<json>";
     md5_hexdigest := fun _ => "0123456789abcdef0123456789abcdef";
     py_repr := fun v => match v with JInt 10 => "10" | _ => "<repr>" end;
     strtod := fun _ => None;
     int_to_double := fun _ => None;
     utf8_decode := fun s => Some s |}.

Definition noon : datetime :=
  {| isoformat := "2024-05-01T12:00:00"; ymd := "2024-05-01";
     ymd_hms := "20240501_120000" |}.

Definition http_ok (body : string) : py http_response :=
  Ok {| status_code := 200; text := body |}.

Definition http_status (code : Z) : py http_response :=
  Ok {| status_code := code; text := "" |}.

(** No secret store, every API answers 500, S3 accepts every write. *)
Definition apis_down : Env :=
  {| BUCKET_NAME := Some "bucket"; SECRET_NAME := "data-pipeline-config";
     clock := fun _ => noon;
     total_seconds := fun _ _ => 0%float;
     get_secret_value := fun _ => Raise (mkExn ClientError "AccessDenied");
     requests_importable := true;
     requests_get := fun _ _ => http_status 500;
     urllib3_request := fun _ => http_status 500;
     put_object_error := fun _ => None |}.

(** As [apis_down], and S3 refuses every write. *)
Definition apis_down_s3_denied : Env :=
  {| BUCKET_NAME := None; SECRET_NAME := "data-pipeline-config";
     clock := fun _ => noon;
     total_seconds := fun _ _ => 0%float;
     get_secret_value := fun _ => Raise (mkExn ClientError "AccessDenied");
     requests_importable := true;
     requests_get := fun _ _ => http_status 500;
     urllib3_request := fun _ => http_status 500;
     put_object_error := fun _ => Some (mkExn ClientError "Invalid bucket name") |}.

(** The secret holds [{"foo": 1}]: a document with no ['data_sources']. *)
Definition secret_without_sources : Env :=
  {| BUCKET_NAME := Some "bucket"; SECRET_NAME := "data-pipeline-config";
     clock := fun _ => noon;
     total_seconds := fun _ _ => 0%float;
     get_secret_value := fun _ => Ok (Some text_no_sources);
     requests_importable := true;
     requests_get := fun _ _ => http_status 500;
     urllib3_request := fun _ => http_status 500;
     put_object_error := fun _ => None |}.

(** Every API answers 200 with [body]; [with_requests] says which client. *)
Definition apis_answer (with_requests : bool) (body : string) : Env :=
  {| BUCKET_NAME := Some "bucket"; SECRET_NAME := "data-pipeline-config";
     clock := fun _ => noon;
     total_seconds := fun _ _ => 0%float;
     get_secret_value := fun _ => Raise (mkExn ClientError "AccessDenied");
     requests_importable := with_requests;
     requests_get := fun _ _ => http_ok body;
     urllib3_request := fun _ => http_ok body;
     put_object_error := fun _ => None |}.

(** The config of 'marketing' and the sources of the built-in default. *)
Definition marketing_config : json :=
  source_entry "FakeStore API" "https://fakestoreapi.com/products".

Definition default_sources : dict :=
  [ ("marketing", marketing_config);
    ("sales",
     source_entry "JSONPlaceholder"
       "https://jsonplaceholder.typicode.com/posts");
    ("crm", source_entry "RandomUser API" "https://randomuser.me/api/") ].

(** Two crm records, the first one without a name. *)
Definition crm_records : list dict :=
  [ [("email", JStr "a@b.c")];
    [("name", JDict [("first", JStr "Ada")])] ].

End Sample.


(* ================================================================== *)
(** ** Vocabulary of the statements *)

Definition known_source (n : string) : bool :=
  String.eqb n "marketing" || String.eqb n "sales" || String.eqb n "crm".

(** Python's ["d" * n]. *)
Fixpoint str_mul (s : string) (n : nat) : string :=
  match n with O => "" | S k => s ++ str_mul s k end.

(** The raw marketing record of the specification's example. *)
Definition marketing_example : json :=
  JDict [ ("id", JInt 1); ("title", JStr "T"); ("price", JStr "9.99");
          ("category", JStr "c"); ("description", JStr (str_mul "d" 300));
          ("image", JStr "i") ].

(** The generic envelope of a transformed record. *)
Definition has_envelope (source_name : string) (record out : json) : Prop :=
  exists d,
    out = JDict d /\
    dict_has "record_id" d = true /\
    dict_get "source" d = Some (JStr source_name) /\
    dict_has "extracted_at" d = true /\
    dict_has "extracted_date" d = true /\
    dict_get "raw_data" d = Some record.

(** The [if/elif] chain of [transform_data] as a function of the envelope. *)
Definition add_payload (rt : Runtime) (source_name : string) (record : json)
    (transformed_record : dict) : py dict :=
  if String.eqb source_name "marketing" then
    product <- marketing_product rt record ;;
    Ok (dict_set "product" product transformed_record)
  else if String.eqb source_name "sales" then
    sale <- sales_sale record ;;
    Ok (dict_set "sale" sale transformed_record)
  else if String.eqb source_name "crm" then
    customer <- crm_customer rt record ;;
    Ok (match customer with
        | Some c => dict_set "customer" c transformed_record
        | None => transformed_record
        end)
  else Ok transformed_record.

(** The state after one more clock reading. *)
Definition tick1 (st : State) : State :=
  {| ticks := S (ticks st); bucket := bucket st; results := results st |}.

(** The source name in which [unique_string.encode()] meets a surrogate. *)
Definition surrogate_name : string := String (ascii_of_nat 220) EmptyString.

(** The state after three more clock readings. *)
Definition tick3 (st : State) : State :=
  {| ticks := S (S (S (ticks st))); bucket := bucket st;
     results := results st |}.

(** The configured sources, when [config['data_sources']] is a mapping. *)
Definition data_sources_of (config : json) : option dict :=
  match config with
  | JDict d =>
      match dict_get "data_sources" d with
      | Some (JDict items) => Some items
      | _ => None
      end
  | _ => None
  end.

(** The state when the outer [try] is entered. *)
Definition started (env : Env) (context : option Context) : State :=
  {| ticks := 1; bucket := [];
     results := initial_results context (clock env 0) |}.

(** Lines 70-122: the outer [try] with its handler. *)
Definition guarded (rt : Runtime) (env : Env) (config : json) : M unit :=
  try_except (run_pipeline rt env config) fatal.

(** Lines 125-128: the state once the end time is recorded, the run having
    started at the first clock reading. *)
Definition finished (env : Env) (st : State) : State :=
  {| ticks := S (ticks st); bucket := bucket st;
     results := set_end (isoformat (clock env (ticks st)))
                  (total_seconds env (clock env 0) (clock env (ticks st)))
                  (results st) |}.

(** The state when the loop over [items] is over. *)
Definition after_sources (rt : Runtime) (env : Env)
    (context : option Context) (items : dict) : State :=
  snd (process_sources rt env items (started env context)).

(** The extraction of a configured source gave something to process. *)
Definition yields_data (rt : Runtime) (env : Env) (items : dict)
    (source_name : string) : Prop :=
  exists source_config raw,
    In (source_name, source_config) items /\
    extract_data_safe rt env source_name source_config = Ok raw /\
    truthy raw = true.

(** A computation that leaves the [results] dictionary alone. *)
Definition keeps_results {A} (c : M A) : Prop :=
  forall st, results (snd (c st)) = results st.

(** One way or another the secret cannot be read as a JSON document. *)
Definition retrieval_fails (rt : Runtime) (env : Env) : Prop :=
  (exists e, get_secret_value env (SECRET_NAME env) = Raise e) \/
  get_secret_value env (SECRET_NAME env) = Ok None \/
  (exists s, get_secret_value env (SECRET_NAME env) = Ok (Some s) /\
             json_loads rt s = None).

(** *** Optional fields of the per-source projections *)

Definition absent_or (ok : json -> bool) (k : string) (d : dict) : bool :=
  match dict_get k d with None => true | Some v => ok v end.

Definition sliceable (v : json) : bool :=
  match v with JStr _ | JList _ => true | _ => false end.

Definition is_dict (v : json) : bool :=
  match v with JDict _ => true | _ => false end.

Definition floatable (rt : Runtime) (v : json) : bool :=
  negb (raises (py_float rt v)).

(** Every field the projection converts is absent or has a value the
    conversion accepts. *)
Definition fields_usable (rt : Runtime) (source_name : string) (d : dict)
    : bool :=
  if String.eqb source_name "marketing" then
    absent_or (floatable rt) "price" d && absent_or sliceable "description" d
  else if String.eqb source_name "sales" then
    absent_or sliceable "body" d
  else if String.eqb source_name "crm" then
    absent_or (fun name => is_dict name
                           && absent_or is_dict "location" d
                           && absent_or is_dict "registered" d) "name" d
  else true.

(** The value at a path of keys through nested mappings, if all are there. *)
Fixpoint lookup_path (path : list string) (v : json) : option json :=
  match path with
  | [] => Some v
  | k :: rest =>
      match v with
      | JDict d =>
          match dict_get k d with
          | Some v' => lookup_path rest v'
          | None => None
          end
      | _ => None
      end
  end.

(** A projection: the key of the nested payload, the raw key the payload
    depends on (if any), and for each payload field the raw path it reads
    and what it holds when the path is missing. *)
Record projection : Type := {
  payload_key : string;
  needs : option string;
  fields : list (string * list string * json)
}.

Definition marketing_projection : projection :=
  {| payload_key := "product"; needs := None;
     fields := [ ("id", ["id"], JNull);
                 ("title", ["title"], JStr "");
                 ("price", ["price"], JFloat 0);
                 ("category", ["category"], JStr "");
                 ("description", ["description"], JStr "");
                 ("image", ["image"], JStr "");
                 ("rating", ["rating"], JDict []) ] |}.

Definition sales_projection : projection :=
  {| payload_key := "sale"; needs := None;
     fields := [ ("id", ["id"], JNull);
                 ("user_id", ["userId"], JNull);
                 ("title", ["title"], JStr "");
                 ("body", ["body"], JStr "") ] |}.

Definition crm_projection : projection :=
  {| payload_key := "customer"; needs := Some "name";
     fields := [ ("first_name", ["name"; "first"], JStr "");
                 ("last_name", ["name"; "last"], JStr "");
                 ("email", ["email"], JStr "");
                 ("phone", ["phone"], JStr "");
                 ("country", ["location"; "country"], JStr "");
                 ("city", ["location"; "city"], JStr "");
                 ("registered_date", ["registered"; "date"], JStr "") ] |}.

Definition projection_of (source_name : string) : option projection :=
  if String.eqb source_name "marketing" then Some marketing_projection
  else if String.eqb source_name "sales" then Some sales_projection
  else if String.eqb source_name "crm" then Some crm_projection
  else None.

Definition field_defaulted (raw : dict) (payload : dict)
    (f : string * list string * json) : Prop :=
  lookup_path (snd (fst f)) (JDict raw) = None ->
  dict_get (fst (fst f)) payload = Some (snd f).

(** What the projection [pr] promises of the output [out] for [raw]. *)
Definition projected (pr : projection) (raw : dict) (out : json) : Prop :=
  exists od,
    out = JDict od /\
    if match needs pr with Some k => dict_has k raw | None => true end
    then exists p, dict_get (payload_key pr) od = Some (JDict p) /\
                   Forall (field_defaulted raw p) (fields pr)
    else dict_get (payload_key pr) od = None.

(* ================================================================== *)
(** ** Vocabulary of the further properties *)

(** The response the extraction receives on the client path it takes:
    requests when it can be imported, urllib3 otherwise. *)
Definition fetched (rt : Runtime) (env : Env) (source_name : string)
    (config : json) : py http_response :=
  if requests_importable env then
    target <- requests_target source_name config ;;
    requests_get env (fst target) (snd target)
  else
    url <- urllib3_url rt source_name config ;;
    urllib3_request env url.

(** The body of a response as that path parses it. *)
Definition parsed (rt : Runtime) (env : Env) (response : http_response)
    : option json :=
  if requests_importable env then json_loads rt (text response)
  else
    match utf8_decode rt (text response) with
    | Some s => json_loads rt s
    | None => None
    end.

(** The three hard-coded endpoints: source, URL, name of the limit
    parameter. *)
Definition endpoints : list (string * (string * string)) :=
  [ ("marketing", ("https://fakestoreapi.com/products", "limit"));
    ("sales", ("https://jsonplaceholder.typicode.com/posts", "_limit"));
    ("crm", ("https://randomuser.me/api/", "results")) ].

Fixpoint endpoint_of (source_name : string)
    (table : list (string * (string * string))) : option (string * string) :=
  match table with
  | [] => None
  | (n, e) :: rest =>
      if String.eqb source_name n then Some e else endpoint_of source_name rest
  end.

(** A [default_limit] that a slice accepts. *)
Definition index_like (v : json) : bool :=
  match v with JNull | JInt _ | JBool _ => true | _ => false end.

(** A config whose limit is 1, and one whose limit is a string. *)
Definition limit_one : json := JDict [("default_limit", JInt 1)].
Definition limit_text : json := JDict [("default_limit", JStr "10")].

(** A config of 'marketing' that names another URL. *)
Definition marketing_elsewhere : json :=
  JDict [("url", JStr "https://example.org/items"); ("default_limit", JInt 5)].

(** The metadata entry of an object. *)
Fixpoint metadata_get (k : string) (m : list (string * string))
    : option string :=
  match m with
  | [] => None
  | (k', v) :: t => if String.eqb k k' then Some v else metadata_get k t
  end.

(** The keys of the generic envelope, in the order they are set. *)
Definition envelope_keys : list string :=
  ["record_id"; "source"; "extracted_at"; "extracted_date"; "raw_data"].

(** The state when the call ends. *)
Definition final_state (rt : Runtime) (env : Env) (event : json)
    (context : option Context) : State :=
  snd (lambda_handler_m rt env event context boot).

(** A state with its [results] dictionary updated. *)
Definition with_results (f : Results -> Results) (st : State) : State :=
  {| ticks := ticks st; bucket := bucket st; results := f (results st) |}.

(** What the outer handler does to [results]. *)
Definition mark_fatal (e : exn) (r : Results) : Results :=
  add_error ("Fatal error: " ++ exn_str e) (set_success false r).

(** What the handler of the source loop appends to [errors]. *)
Definition source_error (source_name : string) (e : exn) : string :=
  "Error processing " ++ source_name ++ ": " ++ exn_str e.

(** What a loaded source adds to [results]. *)
Definition mark_processed (source_name : string) (count : nat)
    (file_path : string) (r : Results) : Results :=
  add_file_created file_path
    (add_total_records (Z.of_nat count)
       (add_source_processed source_name r)).

(** A computation that writes nothing to the bucket. *)
Definition keeps_bucket {A} (c : M A) : Prop :=
  forall st, bucket (snd (c st)) = bucket st.

(** The exception that stops a source after its extraction, if there is
    one: that of the transformation, or else that of the S3 write. *)
Definition stage_failure (rt : Runtime) (env : Env) (source_name : string)
    (raw_data : json) (st : State) : option exn :=
  match transform_data rt env source_name raw_data st with
  | (Raise e, _) => Some e
  | (Ok transformed_data, st1) =>
      match load_to_s3 rt env source_name transformed_data st1 with
      | (Raise e, _) => Some e
      | (Ok _, _) => None
      end
  end.

(** The configured source delivers something to process. *)
Definition delivers (rt : Runtime) (env : Env) (item : string * json) : bool :=
  match extract_data_safe rt env (fst item) (snd item) with
  | Ok raw_data => truthy raw_data
  | Raise _ => false
  end.

(** The keys of the objects in the bucket, oldest first. *)
Definition written_keys (st : State) : list string :=
  rev (map obj_key (bucket st)).

(** The parts of [results] that the source loop does not touch. *)
Definition same_header (r r' : Results) : Prop :=
  execution_id r' = execution_id r /\
  start_time r' = start_time r /\
  end_time r' = end_time r /\
  duration_seconds r' = duration_seconds r /\
  success r' = success r.

(** Worlds for the examples: the secret holds an empty document; S3
    refuses the data objects but takes the summary. *)
Module Sample2.

Definition empty_secret_runtime : Runtime :=
  {| json_loads := fun s =>
       if String.eqb s "{}" then Some (JDict []) else json_loads Sample.runtime s;
     json_dumps := json_dumps Sample.runtime;
     json_dumps_indent := json_dumps_indent Sample.runtime;
     md5_hexdigest := md5_hexdigest Sample.runtime;
     py_repr := py_repr Sample.runtime;
     strtod := strtod Sample.runtime;
     int_to_double := int_to_double Sample.runtime;
     utf8_decode := utf8_decode Sample.runtime |}.

Definition empty_secret : Env :=
  {| BUCKET_NAME := Some "bucket"; SECRET_NAME := "data-pipeline-config";
     clock := fun _ => Sample.noon;
     total_seconds := fun _ _ => 0%float;
     get_secret_value := fun _ => Ok (Some "{}");
     requests_importable := true;
     requests_get := fun _ _ => Sample.http_ok Sample.text_two_records;
     urllib3_request := fun _ => Sample.http_ok Sample.text_two_records;
     put_object_error := fun _ => None |}.

Definition data_writes_denied : Env :=
  {| BUCKET_NAME := Some "bucket"; SECRET_NAME := "data-pipeline-config";
     clock := fun _ => Sample.noon;
     total_seconds := fun _ _ => 0%float;
     get_secret_value := fun _ => Raise (mkExn ClientError "AccessDenied");
     requests_importable := true;
     requests_get := fun _ _ => Sample.http_ok Sample.text_two_records;
     urllib3_request := fun _ => Sample.http_ok Sample.text_two_records;
     put_object_error := fun o =>
       if String.prefix "data/" (obj_key o)
       then Some (mkExn ClientError "AccessDenied")
       else None |}.

Definition two_records : json :=
  JList [JDict [("id", JInt 1)]; JDict [("id", JInt 2)]].

End Sample2.

(** An entry of [errors] left by the source loop. *)
Definition per_source (msg : string) : Prop :=
  String.prefix "Error processing " msg = true.

(** The books of a state agree: the keys written to the bucket are the
    files listed in [results], and each processed source has one file. *)
Definition ledger (st : State) : Prop :=
  written_keys st = files_created (results st) /\
  List.length (files_created (results st))
    = List.length (sources_processed (results st)).

(** A config of an unknown source with a limit of zero. *)
Definition limit_zero : json :=
  JDict [("url", JStr "https://example.org/items"); ("default_limit", JInt 0)].

(** The elements of a list that a mask of booleans selects, in order. *)
Fixpoint pick {A} (mask : list bool) (l : list A) : list A :=
  match mask, l with
  | b :: mask', x :: l' => if b then x :: pick mask' l' else pick mask' l'
  | _, _ => []
  end.

(* ================================================================== *)
(** ** Laws of the state-and-exception monad *)

Lemma bind_inv_Ok {A B} (c : M A) (k : A -> M B) st b st' :
  bind c k st = (Ok b, st') ->
  exists a st1, c st = (Ok a, st1) /\ k a st1 = (Ok b, st').
Proof.
  unfold bind. destruct (c st) as [[a | e] st1]; intros H.
  - exists a, st1. split; [reflexivity | exact H].
  - discriminate H.
Qed.

Lemma bind_step_Ok {A B} (c : M A) (k : A -> M B) st a st1 :
  c st = (Ok a, st1) -> bind c k st = k a st1.
Proof. unfold bind. intros ->. reflexivity. Qed.

Lemma bind_step_Raise {A B} (c : M A) (k : A -> M B) st e st1 :
  c st = (Raise e, st1) -> bind c k st = (Raise e, st1).
Proof. unfold bind. intros ->. reflexivity. Qed.

Lemma keeps_ret {A} (a : A) : keeps_results (ret a).
Proof. intros st. reflexivity. Qed.

Lemma keeps_raise {A} (e : exn) : keeps_results (@raise A e).
Proof. intros st. reflexivity. Qed.

Lemma keeps_lift {A} (c : py A) : keeps_results (lift c).
Proof. intros st. reflexivity. Qed.

Lemma keeps_now env : keeps_results (datetime_now env).
Proof. intros st. reflexivity. Qed.

Lemma keeps_put env o : keeps_results (put_object env o).
Proof.
  intros st. unfold put_object.
  destruct (put_object_error env o); reflexivity.
Qed.

Lemma keeps_bind {A B} (c : M A) (k : A -> M B) :
  keeps_results c -> (forall a, keeps_results (k a)) ->
  keeps_results (bind c k).
Proof.
  intros Hc Hk st. unfold bind.
  specialize (Hc st). destruct (c st) as [[a | e] st1]; cbn in *.
  - rewrite (Hk a st1). exact Hc.
  - exact Hc.
Qed.

Create HintDb keeps.
#[local] Hint Resolve keeps_ret keeps_raise keeps_lift keeps_now keeps_put : keeps.

Ltac keeps_step :=
  first
    [ apply keeps_bind; [ | intro ]
    | solve [ auto with keeps ]
    | match goal with
      | |- keeps_results (if ?b then _ else _) => destruct b
      | |- keeps_results (match ?x with _ => _ end) => destruct x
      end ].

Ltac keeps_tac := repeat keeps_step.

(* ================================================================== *)
(** ** transform_data *)

Section TransformFacts.

Variable rt : Runtime.
Variable env : Env.

(** When the source name cannot be encoded, one turn of the loop reads the
    clock once and raises. *)
Lemma transform_record_unencodable source_name idx record st e :
  py_encode source_name = Raise e ->
  transform_record rt env source_name idx record st = (Raise e, tick1 st).
Proof.
  intros E. unfold transform_record, bind, datetime_now, lift, tick1.
  rewrite E. reflexivity.
Qed.

Lemma known_source_encodes source_name :
  known_source source_name = true -> py_encode source_name = Ok tt.
Proof.
  unfold known_source. intros H.
  apply orb_true_iff in H as [H | H]; [apply orb_true_iff in H as [H | H] | ];
    apply String.eqb_eq in H; subst; reflexivity.
Qed.

(** Otherwise it reads the clock three times and then either fails in the
    projection or yields the envelope with the payload added. *)
Lemma transform_record_eq source_name idx record st :
  py_encode source_name = Ok tt ->
  transform_record rt env source_name idx record st =
  let unique_string :=
    source_name ++ "_" ++ str_of_nat idx ++ "_"
      ++ isoformat (clock env (ticks st)) ++ "_" ++ json_dumps rt record in
  let record_id := substring 0 12 (md5_hexdigest rt unique_string) in
  let transformed_record :=
    envelope_of source_name record_id (clock env (S (ticks st)))
      (clock env (S (S (ticks st)))) record in
  match add_payload rt source_name record transformed_record with
  | Ok d => (Ok (JDict d), tick3 st)
  | Raise e => (Raise e, tick3 st)
  end.
Proof.
  intros E.
  unfold transform_record, add_payload, bind, datetime_now, lift, ret, tick3.
  rewrite E.
  cbn -[envelope_of marketing_product sales_sale crm_customer String.eqb
        substring append].
  destruct (String.eqb source_name "marketing").
  { destruct (marketing_product rt record); reflexivity. }
  destruct (String.eqb source_name "sales").
  { destruct (sales_sale record); reflexivity. }
  destruct (String.eqb source_name "crm").
  { destruct (crm_customer rt record) as [[c | ] | e]; reflexivity. }
  reflexivity.
Qed.

Lemma transform_record_Ok_inv source_name idx record st o st' :
  transform_record rt env source_name idx record st = (Ok o, st') ->
  py_encode source_name = Ok tt.
Proof.
  destruct (py_encode source_name) as [[] | e] eqn:En; [reflexivity | ].
  rewrite (transform_record_unencodable _ _ _ _ _ En). discriminate.
Qed.

Lemma add_payload_independent source_name record tr tr' e :
  add_payload rt source_name record tr = Raise e ->
  add_payload rt source_name record tr' = Raise e.
Proof.
  unfold add_payload.
  destruct (String.eqb source_name "marketing").
  { destruct (marketing_product rt record); cbn; [discriminate | tauto]. }
  destruct (String.eqb source_name "sales").
  { destruct (sales_sale record); cbn; [discriminate | tauto]. }
  destruct (String.eqb source_name "crm").
  { destruct (crm_customer rt record); cbn; [discriminate | tauto]. }
  discriminate.
Qed.

Lemma add_payload_unknown source_name record tr :
  known_source source_name = false ->
  add_payload rt source_name record tr = Ok tr.
Proof.
  unfold known_source, add_payload. intros H.
  apply orb_false_iff in H as [H Hc]. apply orb_false_iff in H as [Hm Hs].
  rewrite Hm, Hs, Hc. reflexivity.
Qed.

Lemma add_payload_known source_name record tr e :
  add_payload rt source_name record tr = Raise e ->
  known_source source_name = true.
Proof.
  intros H. destruct (known_source source_name) eqn:K; [reflexivity | ].
  rewrite (add_payload_unknown _ _ _ K) in H. discriminate H.
Qed.

Lemma add_payload_envelope source_name record record_id t1 t2 d :
  add_payload rt source_name record
    (envelope_of source_name record_id t1 t2 record) = Ok d ->
  has_envelope source_name record (JDict d).
Proof.
  unfold add_payload. intros H. exists d. split; [reflexivity | ].
  destruct (String.eqb source_name "marketing").
  { destruct (marketing_product rt record); [ | discriminate H].
    injection H as <-. cbn. repeat split; reflexivity. }
  destruct (String.eqb source_name "sales").
  { destruct (sales_sale record); [ | discriminate H].
    injection H as <-. cbn. repeat split; reflexivity. }
  destruct (String.eqb source_name "crm").
  { destruct (crm_customer rt record) as [[c | ] | e]; [ | | discriminate H];
      injection H as <-; cbn; repeat split; reflexivity. }
  injection H as <-. cbn. repeat split; reflexivity.
Qed.

(** What the loop of [transform_data] does from any index, accumulator and
    state: it appends one enveloped record per input, or stops at the first
    record whose projection raises. *)
Lemma transform_loop_outcome source_name records :
  forall idx acc st,
    match fst (transform_loop rt env source_name idx records acc st) with
    | Ok out =>
        exists new, out = (acc ++ new)%list /\
                    Forall2 (has_envelope source_name) records new
    | Raise e =>
        (py_encode source_name = Raise e /\ records <> []) \/
        exists r, In r records /\
                  forall tr, add_payload rt source_name r tr = Raise e
    end.
Proof.
  induction records as [ | r rest IH]; intros idx acc st.
  - cbn. exists []. split; [now rewrite app_nil_r | constructor].
  - cbn [transform_loop]. unfold bind at 1.
    destruct (py_encode source_name) as [[] | e0] eqn:En.
    2:{ rewrite (transform_record_unencodable _ _ _ _ _ En). cbn.
        left. split; [reflexivity | discriminate]. }
    rewrite transform_record_eq by exact En. cbv zeta.
    destruct (add_payload rt source_name r _) as [d | e] eqn:P.
    + specialize (IH (S idx) (acc ++ [JDict d])%list (tick3 st)).
      destruct (fst (transform_loop rt env source_name (S idx) rest
                       (acc ++ [JDict d])%list (tick3 st))) as [out | e'].
      * destruct IH as (new & -> & F).
        exists (JDict d :: new). split.
        { now rewrite <- app_assoc. }
        constructor; [ | exact F].
        eapply add_payload_envelope; exact P.
      * destruct IH as [[E' _] | (r' & I & F)]; [discriminate E' | ].
        right. exists r'. split; [now right | exact F].
    + cbn. right. exists r. split; [now left | ].
      intros tr. eapply add_payload_independent; exact P.
Qed.

End TransformFacts.

(** C10 (as amended).  For every source name and every list of raw records,
    [transform_data] either returns a list of the same length as its input
    in which every record carries [record_id], [source], [extracted_at],
    [extracted_date] and [raw_data], with [source] the given name and
    [raw_data] the input record unchanged, or it raises.  It raises in two
    cases only: the list is not empty and the source name cannot be encoded
    to UTF-8 (it holds a surrogate), with the encoding's exception; or the
    name is one of the three known source names and the projection of one
    of the input records raises, with that exception. *)
Theorem transform_data_envelopes rt env source_name (raw : list json) st :
  match fst (transform_data rt env source_name (JList raw) st) with
  | Ok out =>
      List.length out = List.length raw /\
      Forall2 (has_envelope source_name) raw out
  | Raise e =>
      (raw <> [] /\ py_encode source_name = Raise e) \/
      (known_source source_name = true /\
       exists r, In r raw /\
                 forall tr, add_payload rt source_name r tr = Raise e)
  end.
Proof.
  unfold transform_data, lift. cbn [py_iter].
  rewrite (bind_step_Ok _ _ st raw st) by reflexivity.
  pose proof (transform_loop_outcome rt env source_name raw 0%nat [] st) as H.
  destruct (fst (transform_loop rt env source_name 0 raw [] st)) as [out | e].
  - destruct H as (new & -> & F). cbn. split; [ | exact F].
    symmetry. eapply Forall2_length; exact F.
  - destruct H as [[E N] | (r & I & F)]; [left; auto | right]. split.
    + eapply add_payload_known. apply (F []).
    + exists r. split; [exact I | exact F].
Qed.

(** C10 (as stated) fails: a marketing record whose price is null makes
    [transform_data] raise instead of returning a list. *)
Lemma transform_data_null_price_raises :
  fst (transform_data Sample.runtime Sample.apis_down "marketing"
         (JList [JDict [("price", JNull)]]) boot)
  = Raise (mkExn TypeError
      "float() argument must be a string or a real number, not 'NoneType'").
Proof. vm_compute. reflexivity. Qed.

(** C9.  The raw marketing record of the example is transformed into a
    record whose [product.description] has at most 200 characters and whose
    [product.price] is the float 9.99, whatever the runtime, the world and
    the state. *)
Theorem marketing_example_transformed rt env st :
  exists out st',
    transform_data rt env "marketing" (JList [marketing_example]) st
      = (Ok [out], st') /\
    exists product description,
      py_getitem out "product" = Ok product /\
      py_getitem product "description" = Ok (JStr description) /\
      (String.length description <= 200)%nat /\
      py_getitem product "price" = Ok (JFloat 9.99).
Proof.
  do 2 eexists. split.
  - unfold transform_data, lift. cbn [py_iter].
    rewrite (bind_step_Ok _ _ st [marketing_example] st) by reflexivity.
    cbn [transform_loop]. unfold bind.
    rewrite transform_record_eq by reflexivity.
    cbv zeta. vm_compute add_payload. reflexivity.
  - do 2 eexists. split; [reflexivity | ].
    split; [vm_compute; reflexivity | ].
    split; [apply Nat.leb_le; vm_compute; reflexivity | ].
    vm_compute. reflexivity.
Qed.

Section ProjectionFacts.

Variable rt : Runtime.

Lemma dict_get_set_same k v d : dict_get k (dict_set k v d) = Some v.
Proof.
  induction d as [ | [k' v'] t IH]; cbn.
  - now rewrite String.eqb_refl.
  - destruct (String.eqb k k') eqn:E; cbn; rewrite ?E, ?String.eqb_refl; auto.
Qed.

Lemma absent_or_inv ok k d :
  absent_or ok k d = true ->
  dict_get k d = None \/ exists v, dict_get k d = Some v /\ ok v = true.
Proof.
  unfold absent_or. destruct (dict_get k d) as [v | ]; [right | left]; eauto.
Qed.

Lemma floatable_inv v :
  floatable rt v = true -> exists f, py_float rt v = Ok f.
Proof.
  unfold floatable. destruct (py_float rt v) as [f | e]; [eauto | discriminate].
Qed.

Lemma sliceable_inv v :
  sliceable v = true -> exists w, py_slice_200 v = Ok w.
Proof. destruct v; try discriminate; cbn; eauto. Qed.

Lemma is_dict_inv v : is_dict v = true -> exists d, v = JDict d.
Proof. destruct v; try discriminate; eauto. Qed.


Ltac field_by_lookup :=
  unfold field_defaulted; cbn [fst snd lookup_path];
  let L := fresh "L" in
  intros L; cbn;
  repeat match type of L with
         | context [dict_get ?k ?d] =>
             let E := fresh "E" in
             destruct (dict_get k d) as [[ | | | | | | ] | ] eqn:E;
             try discriminate L; try congruence
         end;
  try reflexivity; try congruence.

Lemma marketing_projected d tr :
  fields_usable rt "marketing" d = true ->
  exists p,
    add_payload rt "marketing" (JDict d) tr = Ok (dict_set "product" (JDict p) tr) /\
    Forall (field_defaulted d p) (fields marketing_projection).
Proof.
  unfold fields_usable. cbn [String.eqb Ascii.eqb Bool.eqb].
  intros H. apply andb_true_iff in H as [Hp Hd].
  assert (exists f, py_float rt (match dict_get "price" d with
                                 | Some v => v | None => JInt 0 end) = Ok f /\
                    (dict_get "price" d = None -> f = 0%float)) as (f & Ef & Df).
  { apply absent_or_inv in Hp as [N | (v & S & F)].
    - rewrite N. exists 0%float. split; reflexivity.
    - rewrite S. apply floatable_inv in F as (f & F). exists f.
      split; [exact F | discriminate]. }
  assert (exists w, py_slice_200 (match dict_get "description" d with
                                  | Some v => v | None => JStr "" end) = Ok w /\
                    (dict_get "description" d = None -> w = JStr ""))
    as (w & Ew & Dw).
  { apply absent_or_inv in Hd as [N | (v & S & F)].
    - rewrite N. exists (JStr ""). split; reflexivity.
    - rewrite S. apply sliceable_inv in F as (w & F). exists w.
      split; [exact F | discriminate]. }
  unfold add_payload, marketing_product, py_get.
  cbn [String.eqb Ascii.eqb Bool.eqb bind_py].
  rewrite Ef. cbn [bind_py]. rewrite Ew. cbn [bind_py].
  eexists. split; [reflexivity | ].
  cbn [fields marketing_projection sales_projection crm_projection];
  repeat constructor; try (field_by_lookup; fail).
  - unfold field_defaulted; cbn. intros L. rewrite Df; [reflexivity | ].
    destruct (dict_get "price" d); [discriminate L | reflexivity].
  - unfold field_defaulted; cbn. intros L. rewrite Dw; [reflexivity | ].
    destruct (dict_get "description" d); [discriminate L | reflexivity].
Qed.

Lemma sales_projected d tr :
  fields_usable rt "sales" d = true ->
  exists p,
    add_payload rt "sales" (JDict d) tr = Ok (dict_set "sale" (JDict p) tr) /\
    Forall (field_defaulted d p) (fields sales_projection).
Proof.
  unfold fields_usable. cbn [String.eqb Ascii.eqb Bool.eqb].
  intros Hb.
  assert (exists w, py_slice_200 (match dict_get "body" d with
                                  | Some v => v | None => JStr "" end) = Ok w /\
                    (dict_get "body" d = None -> w = JStr ""))
    as (w & Ew & Dw).
  { apply absent_or_inv in Hb as [N | (v & S & F)].
    - rewrite N. exists (JStr ""). split; reflexivity.
    - rewrite S. apply sliceable_inv in F as (w & F). exists w.
      split; [exact F | discriminate]. }
  unfold add_payload, sales_sale, py_get.
  cbn [String.eqb Ascii.eqb Bool.eqb bind_py].
  rewrite Ew. cbn [bind_py].
  eexists. split; [reflexivity | ].
  cbn [fields marketing_projection sales_projection crm_projection];
  repeat constructor; try (field_by_lookup; fail).
  unfold field_defaulted; cbn. intros L. rewrite Dw; [reflexivity | ].
  destruct (dict_get "body" d); [discriminate L | reflexivity].
Qed.

Lemma crm_without_name d tr :
  dict_has "name" d = false ->
  add_payload rt "crm" (JDict d) tr = Ok tr.
Proof.
  intros H. unfold add_payload, crm_customer, py_contains.
  cbn [String.eqb Ascii.eqb Bool.eqb bind_py]. rewrite H. reflexivity.
Qed.

Lemma crm_projected d tr :
  fields_usable rt "crm" d = true ->
  dict_has "name" d = true ->
  exists p,
    add_payload rt "crm" (JDict d) tr = Ok (dict_set "customer" (JDict p) tr) /\
    Forall (field_defaulted d p) (fields crm_projection).
Proof.
  unfold fields_usable, dict_has. cbn [String.eqb Ascii.eqb Bool.eqb].
  intros U H. unfold absent_or at 1 in U.
  destruct (dict_get "name" d) as [name | ] eqn:N; [clear H | discriminate H].
  apply andb_true_iff in U as [U Hr]. apply andb_true_iff in U as [Hn Hl].
  apply is_dict_inv in Hn as (nd & ->).
  assert (exists ld, match dict_get "location" d with
                     | Some v => v | None => JDict [] end = JDict ld /\
                     (dict_get "location" d = None -> ld = [])) as (ld & El & Dl).
  { apply absent_or_inv in Hl as [A | (v & S & F)].
    - rewrite A. exists []. split; reflexivity.
    - rewrite S. apply is_dict_inv in F as (ld & ->). exists ld.
      split; [reflexivity | discriminate]. }
  assert (exists gd, match dict_get "registered" d with
                     | Some v => v | None => JDict [] end = JDict gd /\
                     (dict_get "registered" d = None -> gd = [])) as (gd & Eg & Dg).
  { apply absent_or_inv in Hr as [A | (v & S & F)].
    - rewrite A. exists []. split; reflexivity.
    - rewrite S. apply is_dict_inv in F as (gd & ->). exists gd.
      split; [reflexivity | discriminate]. }
  unfold add_payload, crm_customer, py_contains, py_getitem, py_get, dict_has.
  cbn [String.eqb Ascii.eqb Bool.eqb bind_py]. rewrite N. cbn [bind_py].
  rewrite El, Eg. cbn [bind_py].
  eexists. split; [reflexivity | ].
  assert (forall k, lookup_path ["location"; k] (JDict d) = None ->
                    dict_get k ld = None) as Pl.
  { intros k. cbn. destruct (dict_get "location" d) as [v | ].
    - subst v. destruct (dict_get k ld); [discriminate | reflexivity].
    - intros _. rewrite Dl; reflexivity. }
  assert (forall k, lookup_path ["registered"; k] (JDict d) = None ->
                    dict_get k gd = None) as Pg.
  { intros k. cbn. destruct (dict_get "registered" d) as [v | ].
    - subst v. destruct (dict_get k gd); [discriminate | reflexivity].
    - intros _. rewrite Dg; reflexivity. }
  assert (forall k, lookup_path ["name"; k] (JDict d) = None ->
                    dict_get k nd = None) as Pn.
  { intros k. cbn. rewrite N.
    destruct (dict_get k nd); [discriminate | reflexivity]. }
  cbn [fields marketing_projection sales_projection crm_projection];
  repeat constructor; try (field_by_lookup; fail);
    unfold field_defaulted; cbn [fst snd]; intros L;
    first [ apply Pn in L | apply Pl in L | apply Pg in L ];
    cbn; rewrite L; reflexivity.
Qed.

Variable env : Env.

Lemma add_payload_projected source_name pr d record_id t1 t2 record :
  projection_of source_name = Some pr ->
  fields_usable rt source_name d = true ->
  exists od,
    add_payload rt source_name (JDict d)
      (envelope_of source_name record_id t1 t2 record) = Ok od /\
    projected pr d (JDict od).
Proof.
  unfold projection_of. intros P U.
  destruct (String.eqb source_name "marketing") eqn:Em.
  { apply String.eqb_eq in Em. subst source_name. injection P as <-.
    destruct (marketing_projected d (envelope_of "marketing" record_id t1 t2 record) U)
      as (p & -> & F).
    eexists. split; [reflexivity | ].
    eexists. split; [reflexivity | ]. cbn [needs payload_key fields marketing_projection sales_projection crm_projection].
    exists p. split; [apply dict_get_set_same | exact F]. }
  destruct (String.eqb source_name "sales") eqn:Es.
  { apply String.eqb_eq in Es. subst source_name. injection P as <-.
    destruct (sales_projected d (envelope_of "sales" record_id t1 t2 record) U)
      as (p & -> & F).
    eexists. split; [reflexivity | ].
    eexists. split; [reflexivity | ]. cbn [needs payload_key fields marketing_projection sales_projection crm_projection].
    exists p. split; [apply dict_get_set_same | exact F]. }
  destruct (String.eqb source_name "crm") eqn:Ec; [ | discriminate P].
  apply String.eqb_eq in Ec. subst source_name. injection P as <-.
  cbn [needs payload_key fields marketing_projection sales_projection crm_projection].
  destruct (dict_has "name" d) eqn:H.
  - destruct (crm_projected d (envelope_of "crm" record_id t1 t2 record) U H)
      as (p & -> & F).
    eexists. split; [reflexivity | ].
    eexists. split; [reflexivity | ]. cbn [needs payload_key fields marketing_projection sales_projection crm_projection]. rewrite H.
    exists p. split; [apply dict_get_set_same | exact F].
  - rewrite crm_without_name by exact H.
    eexists. split; [reflexivity | ].
    eexists. split; [reflexivity | ]. cbn [needs payload_key fields marketing_projection sales_projection crm_projection]. rewrite H.
    reflexivity.
Qed.

Lemma transform_loop_projected source_name pr (records : list dict) :
  projection_of source_name = Some pr ->
  forallb (fields_usable rt source_name) records = true ->
  forall idx acc st,
  exists new st',
    transform_loop rt env source_name idx (map JDict records) acc st
      = (Ok (acc ++ new)%list, st') /\
    Forall2 (projected pr) records new.
Proof.
  intros P.
  assert (py_encode source_name = Ok tt) as En.
  { apply known_source_encodes. revert P. unfold projection_of, known_source.
    destruct (String.eqb source_name "marketing"); [reflexivity | ].
    destruct (String.eqb source_name "sales"); [reflexivity | ].
    destruct (String.eqb source_name "crm"); [reflexivity | discriminate]. }
  induction records as [ | d rest IH]; intros U idx acc st.
  - exists [], st. split; [cbn; now rewrite app_nil_r | constructor].
  - cbn [forallb] in U. apply andb_true_iff in U as [Ud Ur].
    cbn [map transform_loop]. unfold bind at 1.
    rewrite (transform_record_eq rt env _ _ _ _ En). cbv zeta.
    edestruct (add_payload_projected source_name pr d) as (od & -> & Q);
      [exact P | exact Ud | ].
    destruct (IH Ur (S idx) (acc ++ [JDict od])%list (tick3 st))
      as (new & st' & -> & F).
    exists (JDict od :: new), st'. split.
    + now rewrite <- app_assoc.
    + constructor; [exact Q | exact F].
Qed.

End ProjectionFacts.

(** C6 (as amended).  For each of the three known source names and every
    list of raw records that are JSON objects, [transform_data] never raises
    because an optional field is absent: it returns whenever every field the
    projection converts (price and description; body; name, location and
    registered) is absent or holds a value the conversion accepts, and each
    payload field whose raw field is missing holds its default: the empty
    string, zero or the empty mapping, and null for [id] and [user_id].  A
    crm record with no ['name'] key never raises and gets no ['customer']
    key. *)
Theorem transform_data_optional_fields rt env source_name pr
    (records : list dict) st :
  projection_of source_name = Some pr ->
  forallb (fields_usable rt source_name) records = true ->
  exists out st',
    transform_data rt env source_name (JList (map JDict records)) st
      = (Ok out, st') /\
    Forall2 (projected pr) records out /\
    (source_name = "crm" ->
     Forall2 (fun d o => dict_has "name" d = false ->
                         fields_usable rt "crm" d = true /\
                         exists od, o = JDict od /\
                                    dict_has "customer" od = false)
             records out).
Proof.
  intros P U.
  destruct (transform_loop_projected rt env source_name pr records P U
              0%nat [] st) as (out & st' & E & F).
  exists out, st'. split; [ | split].
  - unfold transform_data, lift. cbn [py_iter].
    rewrite (bind_step_Ok _ _ st (map JDict records) st) by reflexivity.
    exact E.
  - exact F.
  - intros ->. cbn in P. injection P as <-.
    clear E U. induction F as [ | d o ds os Q F IH]; constructor; [ | exact IH].
    intros H. split.
    + unfold fields_usable, absent_or. cbn [String.eqb Ascii.eqb Bool.eqb].
      unfold dict_has in H. destruct (dict_get "name" d); [discriminate H | reflexivity].
    + destruct Q as (od & -> & Q). cbn [needs payload_key crm_projection] in Q.
      rewrite H in Q. exists od. split; [reflexivity | ].
      unfold dict_has. now rewrite Q.
Qed.

Lemma transform_data_optional_fields_witness :
  projection_of "crm" = Some crm_projection /\
  forallb (fields_usable Sample.runtime "crm") Sample.crm_records = true /\
  exists out st',
    transform_data Sample.runtime Sample.apis_down "crm"
      (JList (map JDict Sample.crm_records)) boot = (Ok out, st') /\
    Forall2 (projected crm_projection) Sample.crm_records out /\
    ("crm" = "crm" ->
     Forall2 (fun d o => dict_has "name" d = false ->
                         fields_usable Sample.runtime "crm" d = true /\
                         exists od, o = JDict od /\
                                    dict_has "customer" od = false)
             Sample.crm_records out).
Proof.
  split; [reflexivity | split; [reflexivity | ] ].
  apply (transform_data_optional_fields Sample.runtime Sample.apis_down "crm"
           crm_projection Sample.crm_records boot); reflexivity.
Defined.

(** C6 (as stated) fails: in the product of a marketing record with no
    fields the missing [id] is null, which is neither the empty string nor
    zero nor the empty mapping; and a record that is a JSON object can still
    make the transformation raise, through a field that is present: a sales
    record whose [body] is a number. *)
Lemma missing_id_is_null_and_bad_body_raises :
  (exists out st',
      transform_data Sample.runtime Sample.apis_down "marketing"
        (JList [JDict []]) boot = (Ok [out], st') /\
      (product <- py_getitem out "product" ;; py_getitem product "id")
        = Ok JNull) /\
  fst (transform_data Sample.runtime Sample.apis_down "sales"
         (JList [JDict [("body", JInt 5)]]) boot)
    = Raise (mkExn TypeError "'int' object is not subscriptable").
Proof.
  split.
  - do 2 eexists. split; vm_compute; reflexivity.
  - vm_compute. reflexivity.
Qed.

(* ================================================================== *)
(** ** extract_data_safe and get_configuration *)

Lemma extract_data_safe_never_raises rt env source_name config :
  raises (extract_data_safe rt env source_name config) = false.
Proof.
  unfold extract_data_safe.
  destruct (extract_with_requests rt env source_name config) as [v | e];
    [reflexivity | ].
  destruct (is_ImportError e); [ | reflexivity].
  destruct (extract_with_urllib3 rt env source_name config); reflexivity.
Qed.

Lemma unknown_source_tests source_name :
  known_source source_name = false ->
  String.eqb source_name "marketing" = false /\
  String.eqb source_name "sales" = false /\
  String.eqb source_name "crm" = false.
Proof.
  unfold known_source. intros H.
  apply orb_false_iff in H as [H Hc]. apply orb_false_iff in H as [Hm Hs].
  auto.
Qed.

(** C4 (as amended).  For every source name other than 'marketing', 'sales'
    and 'crm', [extract_data_safe] takes the URL from [config['url']], with
    empty query parameters on the requests path, and when that lookup raises
    (the 'url' key is absent) the error is caught inside
    [extract_data_safe], which returns [None]; no call of
    [extract_data_safe] raises. *)
Theorem unknown_source_uses_config_url rt env source_name config :
  known_source source_name = false ->
  requests_target source_name config
    = (url <- py_getitem config "url" ;; Ok (url, [])) /\
  urllib3_url rt source_name config = py_getitem config "url" /\
  (raises (py_getitem config "url") = true ->
   extract_data_safe rt env source_name config = Ok JNull) /\
  raises (extract_data_safe rt env source_name config) = false.
Proof.
  intros K. destruct (unknown_source_tests _ K) as (Hm & Hs & Hc).
  assert (requests_target source_name config
          = (url <- py_getitem config "url" ;; Ok (url, []))) as T.
  { unfold requests_target. rewrite Hm, Hs, Hc. reflexivity. }
  assert (urllib3_url rt source_name config = py_getitem config "url") as U.
  { unfold urllib3_url. rewrite Hm, Hs, Hc. reflexivity. }
  repeat split; [exact T | exact U | | apply extract_data_safe_never_raises].
  intros R. unfold extract_data_safe, extract_with_requests, extract_with_urllib3.
  rewrite T, U.
  destruct (py_getitem config "url") as [v | e]; [discriminate R | ].
  destruct (requests_importable env); cbn.
  - destruct (is_ImportError e); reflexivity.
  - reflexivity.
Qed.

(** An unknown source whose config has no 'url'. *)
Lemma unknown_source_uses_config_url_witness :
  known_source "inventory" = false /\
  requests_target "inventory" (JDict [("name", JStr "Stock API")])
    = (url <- py_getitem (JDict [("name", JStr "Stock API")]) "url" ;;
       Ok (url, [])) /\
  urllib3_url Sample.runtime "inventory" (JDict [("name", JStr "Stock API")])
    = py_getitem (JDict [("name", JStr "Stock API")]) "url" /\
  (raises (py_getitem (JDict [("name", JStr "Stock API")]) "url") = true ->
   extract_data_safe Sample.runtime Sample.apis_down "inventory"
     (JDict [("name", JStr "Stock API")]) = Ok JNull) /\
  raises (extract_data_safe Sample.runtime Sample.apis_down "inventory"
            (JDict [("name", JStr "Stock API")])) = false.
Proof.
  split; [reflexivity | ].
  apply (unknown_source_uses_config_url Sample.runtime Sample.apis_down
           "inventory" (JDict [("name", JStr "Stock API")])).
  reflexivity.
Defined.

(** C4 (as stated) fails: for an unknown source whose config has no 'url',
    the lookup raises the key error, and [extract_data_safe] returns [None]
    instead of letting it reach the caller. *)
Lemma missing_url_is_caught :
  py_getitem (JDict [("name", JStr "Stock API")]) "url"
    = Raise (mkExn KeyError "'url'") /\
  extract_data_safe Sample.runtime Sample.apis_down "inventory"
    (JDict [("name", JStr "Stock API")]) = Ok JNull /\
  extract_data_safe Sample.runtime
    (Sample.apis_answer false Sample.text_two_records) "inventory"
    (JDict [("name", JStr "Stock API")]) = Ok JNull.
Proof. repeat split; vm_compute; reflexivity. Qed.

(** The two clients disagree on a dict that has only 'products'. *)
Lemma normalize_products config d v :
  dict_get "results" d = None ->
  dict_get "data" d = None ->
  dict_get "products" d = Some v ->
  normalize_requests config (JDict d) = Ok v /\
  normalize_urllib3 config (JDict d) = Ok (JList [JDict d]).
Proof.
  intros R D P. unfold normalize_requests, normalize_urllib3.
  rewrite R, D, P. split; reflexivity.
Qed.

(** Where the two paths agree: every parsed body except a dict that has
    'products' and neither 'results' nor 'data'. *)
Lemma normalize_paths_agree config data :
  match data with
  | JDict d =>
      dict_has "results" d || dict_has "data" d || negb (dict_has "products" d)
  | _ => true
  end = true ->
  normalize_urllib3 config data = normalize_requests config data.
Proof.
  destruct data as [ | | | | | | d]; try reflexivity.
  unfold normalize_urllib3, normalize_requests, dict_has.
  destruct (dict_get "results" d); [reflexivity | ].
  destruct (dict_get "data" d); [reflexivity | ].
  destruct (dict_get "products" d); [discriminate | reflexivity].
Qed.

(** C5, at the failing input.  The body [{"products": [1, 2]}] answered
    with status 200: with requests the extraction returns the list under
    'products'; on the urllib3 path it returns the whole object wrapped in a
    one-element list. *)
Theorem products_lost_on_urllib3_path :
  extract_data_safe Sample.runtime
    (Sample.apis_answer true Sample.text_products) "marketing"
    (JDict [("default_limit", JInt 10)])
    = Ok (JList [JInt 1; JInt 2]) /\
  extract_data_safe Sample.runtime
    (Sample.apis_answer false Sample.text_products) "marketing"
    (JDict [("default_limit", JInt 10)])
    = Ok (JList [JDict [("products", JList [JInt 1; JInt 2])]]).
Proof. split; vm_compute; reflexivity. Qed.

(** C8.  Whenever the secret cannot be retrieved and parsed (the call
    raises, the response has no secret string, or the string is not JSON),
    [get_configuration] returns the built-in default, whose data sources are
    exactly 'marketing', 'sales' and 'crm'; it does not raise and the value
    is not [None]. *)
Theorem get_configuration_falls_back rt env :
  retrieval_fails rt env ->
  get_configuration rt env = default_configuration /\
  (exists sources,
      py_getitem (get_configuration rt env) "data_sources"
        = Ok (JDict sources) /\
      keys sources = ["marketing"; "sales"; "crm"]) /\
  truthy (get_configuration rt env) = true.
Proof.
  intros F.
  assert (get_configuration rt env = default_configuration) as E.
  { unfold get_configuration, read_secret.
    destruct F as [(e & F) | [F | (s & F & P)]]; rewrite F; cbn.
    - reflexivity.
    - reflexivity.
    - rewrite P. reflexivity. }
  rewrite E. split; [reflexivity | split; [ | reflexivity] ].
  eexists. split; reflexivity.
Qed.

(** The secret store denies access. *)
Lemma get_configuration_falls_back_witness :
  retrieval_fails Sample.runtime Sample.apis_down /\
  get_configuration Sample.runtime Sample.apis_down = default_configuration /\
  (exists sources,
      py_getitem (get_configuration Sample.runtime Sample.apis_down)
        "data_sources" = Ok (JDict sources) /\
      keys sources = ["marketing"; "sales"; "crm"]) /\
  truthy (get_configuration Sample.runtime Sample.apis_down) = true.
Proof.
  assert (retrieval_fails Sample.runtime Sample.apis_down) as F.
  { left. eexists. reflexivity. }
  split; [exact F | ].
  exact (get_configuration_falls_back Sample.runtime Sample.apis_down F).
Defined.

(* ================================================================== *)
(** ** lambda_handler *)

Section HandlerFacts.

Variable rt : Runtime.
Variable env : Env.

Lemma transform_loop_keeps source_name records :
  forall idx acc,
    keeps_results (transform_loop rt env source_name idx records acc).
Proof.
  induction records as [ | r rest IH]; intros idx acc; cbn [transform_loop].
  - apply keeps_ret.
  - apply keeps_bind; [ | intro; apply IH].
    unfold transform_record. keeps_tac.
Qed.

Lemma transform_data_keeps source_name raw_data :
  keeps_results (transform_data rt env source_name raw_data).
Proof.
  unfold transform_data. apply keeps_bind; [apply keeps_lift | intro].
  apply transform_loop_keeps.
Qed.

Lemma load_to_s3_keeps source_name data :
  keeps_results (load_to_s3 rt env source_name data).
Proof. unfold load_to_s3. keeps_tac. Qed.

Lemma save_execution_summary_keeps config :
  keeps_results (save_execution_summary rt env config).
Proof.
  unfold save_execution_summary. apply keeps_bind; [ | intro; keeps_tac].
  intros st. reflexivity.
Qed.

(** One turn of the source loop never raises, and it changes [results] in
    one of three ways. *)
Lemma process_source_outcome source_name source_config st :
  exists st',
    process_source rt env source_name source_config st = (Ok tt, st') /\
    match extract_data_safe rt env source_name source_config with
    | Ok raw_data =>
        if truthy raw_data then
          (exists k p,
              results st' = add_file_created p
                              (add_total_records k
                                 (add_source_processed source_name (results st))))
          \/ (exists msg, results st' = add_error msg (results st))
        else st' = st
    | Raise _ => False
    end.
Proof.
  pose proof (extract_data_safe_never_raises rt env source_name source_config) as NR.
  unfold process_source, try_except. unfold bind at 1. unfold lift at 1.
  destruct (extract_data_safe rt env source_name source_config) as [raw | e];
    [clear NR | discriminate NR].
  destruct (truthy raw).
  2:{ exists st. split; reflexivity. }
  unfold bind at 1.
  pose proof (transform_data_keeps source_name raw st) as K1.
  destruct (transform_data rt env source_name raw st) as [[td | e] st1];
    cbn [snd] in K1.
  2:{ eexists. split; [reflexivity | ]. right. eexists. cbn. rewrite K1. reflexivity. }
  unfold bind at 1.
  pose proof (load_to_s3_keeps source_name td st1) as K2.
  destruct (load_to_s3 rt env source_name td st1) as [[fp | e] st2];
    cbn [snd] in K2.
  2:{ eexists. split; [reflexivity | ]. right. eexists. cbn. rewrite K2, K1. reflexivity. }
  eexists. split; [reflexivity | ]. left. do 2 eexists. cbn. rewrite K2, K1. reflexivity.
Qed.

Lemma process_source_skips source_name source_config st :
  extract_data_safe rt env source_name source_config = Ok JNull ->
  process_source rt env source_name source_config st = (Ok tt, st).
Proof.
  intros E.
  destruct (process_source_outcome source_name source_config st) as (st' & -> & O).
  rewrite E in O. cbn in O. now subst st'.
Qed.

Lemma yields_data_cons item items n :
  yields_data rt env items n -> yields_data rt env (item :: items) n.
Proof.
  intros (c & raw & I & E & T). exists c, raw. repeat split; auto. now right.
Qed.

(** The whole loop never raises, never touches [success], and lists as
    processed only sources whose extraction gave data. *)
Lemma process_sources_outcome items :
  forall st,
  exists st',
    process_sources rt env items st = (Ok tt, st') /\
    success (results st') = success (results st) /\
    forall n, In n (sources_processed (results st')) ->
              In n (sources_processed (results st)) \/
              yields_data rt env items n.
Proof.
  induction items as [ | [n c] rest IH]; intros st.
  - exists st. repeat split. intros n H. now left.
  - cbn [process_sources].
    destruct (process_source_outcome n c st) as (st1 & E1 & O).
    destruct (IH st1) as (st' & E' & S' & P').
    exists st'. rewrite (bind_step_Ok _ _ _ _ _ E1).
    split; [exact E' | ].
    destruct (extract_data_safe rt env n c) as [raw | e] eqn:X; [ | contradiction].
    destruct (truthy raw) eqn:T.
    + assert (success (results st1) = success (results st) /\
              forall m, In m (sources_processed (results st1)) ->
                        In m (sources_processed (results st)) \/ m = n) as [S1 P1].
      { destruct O as [(k & p & ->) | (msg & ->)]; cbn; split; auto.
        intros m H. apply in_app_or in H as [H | [H | []]]; auto. }
      split; [congruence | ].
      intros m H. destruct (P' m H) as [H1 | H1].
      * destruct (P1 m H1) as [H2 | ->]; [now left | right].
        exists c, raw. repeat split; auto. now left.
      * right. now apply yields_data_cons.
    + subst st1. split; [exact S' | ].
      intros m H. destruct (P' m H) as [H1 | H1]; [now left | right].
      now apply yields_data_cons.
Qed.

Lemma process_sources_skip before source_name source_config after :
  extract_data_safe rt env source_name source_config = Ok JNull ->
  forall st,
    process_sources rt env
      (before ++ (source_name, source_config) :: after)%list st
    = process_sources rt env (before ++ after)%list st.
Proof.
  intros E. induction before as [ | [n c] rest IH]; intros st.
  - cbn [app process_sources].
    now rewrite (bind_step_Ok _ _ _ _ _ (process_source_skips _ _ st E)).
  - cbn [app process_sources]. unfold bind.
    destruct (process_source rt env n c st) as [[u | e] st1]; [apply IH | reflexivity].
Qed.

Lemma data_sources_of_inv config items :
  data_sources_of config = Some items ->
  exists d, config = JDict d /\ dict_get "data_sources" d = Some (JDict items).
Proof.
  destruct config as [ | | | | | | d]; try discriminate. cbn.
  destruct (dict_get "data_sources" d) as [[ | | | | | | items'] | ] eqn:E;
    try discriminate.
  intros H. injection H as <-. eauto.
Qed.

(** With a usable configuration the outer [try] runs the loop and then
    writes the summary. *)
Lemma run_pipeline_ready config items st :
  data_sources_of config = Some items ->
  run_pipeline rt env config st
  = bind (save_execution_summary rt env config)
      (fun p => update_results (add_file_created p))
      (snd (process_sources rt env items st)).
Proof.
  intros H. apply data_sources_of_inv in H as (d & -> & E).
  assert (truthy (JDict d) = true) as T.
  { destruct d; [discriminate E | reflexivity]. }
  unfold run_pipeline. rewrite T. cbn [negb].
  unfold count_data_sources, py_getitem. rewrite E. cbn [bind_py py_len py_items].
  unfold bind at 1. cbn [ret].
  unfold bind at 1. cbn [lift].
  unfold bind at 1. cbn [lift].
  unfold bind at 1.
  destruct (process_sources_outcome items st) as (st' & -> & _).
  reflexivity.
Qed.

(** Otherwise it raises before the loop, the state untouched. *)
Lemma run_pipeline_not_ready config st :
  data_sources_of config = None ->
  exists e, run_pipeline rt env config st = (Raise e, st).
Proof.
  intros H. unfold run_pipeline.
  destruct (truthy config) eqn:T; cbn [negb].
  2:{ eexists. reflexivity. }
  unfold bind at 1. cbn [ret]. unfold bind at 1. cbn [lift].
  unfold count_data_sources.
  destruct config as [ | | | | | | d]; try (eexists; reflexivity).
  cbn [py_getitem]. cbn in H.
  destruct (dict_get "data_sources" d) as [[ | | | | | | items] | ];
    try discriminate H; try (eexists; reflexivity).
Qed.

Lemma guarded_never_raises config st :
  fst (guarded rt env config st) = Ok tt.
Proof.
  unfold guarded, try_except.
  destruct (run_pipeline rt env config st) as [[[] | e] st']; reflexivity.
Qed.

(** The call, once the outer [try] is over: the end time is recorded, the
    log line of line 135 is evaluated, and the envelope is built from the
    [results] dictionary. *)
Lemma lambda_handler_m_eq event context :
  lambda_handler_m rt env event context boot =
  let config := get_configuration rt env in
  let st := finished env (snd (guarded rt env config (started env context))) in
  match (if truthy config then count_data_sources config else Ok 0) with
  | Ok _ => (Ok (response_of rt (results st)), st)
  | Raise e => (Raise e, st)
  end.
Proof.
  cbv zeta. unfold lambda_handler_m.
  unfold bind at 1. cbn [datetime_now boot ticks bucket results].
  unfold bind at 1. cbn [update_results ticks bucket results].
  fold (started env context). fold (guarded rt env (get_configuration rt env)).
  unfold bind at 1.
  pose proof (guarded_never_raises (get_configuration rt env) (started env context)) as G.
  destruct (guarded rt env (get_configuration rt env) (started env context))
    as [[[] | e] st2]; [clear G | discriminate G].
  cbn [snd].
  unfold bind at 1. cbn [datetime_now].
  unfold bind at 1. cbn [update_results ticks bucket results].
  fold (finished env st2).
  unfold bind at 1. cbn [lift].
  destruct (if truthy (get_configuration rt env)
            then count_data_sources (get_configuration rt env) else Ok 0);
    reflexivity.
Qed.

Lemma final_results_eq event context :
  final_results rt env event context
  = results (finished env
               (snd (guarded rt env (get_configuration rt env)
                       (started env context)))).
Proof.
  unfold final_results. rewrite lambda_handler_m_eq. cbv zeta.
  destruct (if truthy (get_configuration rt env)
            then count_data_sources (get_configuration rt env) else Ok 0);
    reflexivity.
Qed.

Lemma lambda_handler_eq event context :
  lambda_handler rt env event context
  = match (if truthy (get_configuration rt env)
           then count_data_sources (get_configuration rt env) else Ok 0) with
    | Ok _ => Ok (response_of rt (final_results rt env event context))
    | Raise e => Raise e
    end.
Proof.
  rewrite final_results_eq. unfold lambda_handler.
  rewrite lambda_handler_m_eq. cbv zeta.
  destruct (if truthy (get_configuration rt env)
            then count_data_sources (get_configuration rt env) else Ok 0);
    reflexivity.
Qed.

(** What the outer [try] leaves in [results]. *)
Lemma guarded_outcome config st :
  match data_sources_of config with
  | Some items =>
      let st1 := snd (process_sources rt env items st) in
      sources_processed (results (snd (guarded rt env config st)))
        = sources_processed (results st1) /\
      success (results (snd (guarded rt env config st)))
        = if raises (fst (save_execution_summary rt env config st1))
          then false else success (results st)
  | None =>
      sources_processed (results (snd (guarded rt env config st)))
        = sources_processed (results st) /\
      success (results (snd (guarded rt env config st))) = false
  end.
Proof.
  unfold guarded, try_except.
  destruct (data_sources_of config) as [items | ] eqn:D.
  - rewrite (run_pipeline_ready config items st D). cbv zeta.
    destruct (process_sources_outcome items st) as (st1 & E1 & S1 & _).
    rewrite E1. cbn [snd]. unfold bind.
    pose proof (save_execution_summary_keeps config st1) as K.
    destruct (save_execution_summary rt env config st1) as [[p | e] st2];
      cbn [snd fst raises] in *; cbn; rewrite K; auto.
  - destruct (run_pipeline_not_ready config st D) as (e & ->). cbn. auto.
Qed.

End HandlerFacts.

(** C7.  Whenever [lambda_handler] returns a response, its status code is
    200 exactly when the [success] flag of the result is true and 500
    exactly when it is false; the body is the serialized result. *)
Theorem status_code_mirrors_success rt env event context resp :
  lambda_handler rt env event context = Ok resp ->
  (statusCode resp = 200 <-> success (final_results rt env event context) = true) /\
  (statusCode resp = 500 <-> success (final_results rt env event context) = false) /\
  body resp = json_dumps rt (results_json (final_results rt env event context)).
Proof.
  rewrite lambda_handler_eq.
  destruct (if truthy (get_configuration rt env)
            then count_data_sources (get_configuration rt env) else Ok 0);
    [ | discriminate].
  intros H. injection H as <-. cbn [response_of statusCode body].
  destruct (success (final_results rt env event context));
    repeat split; intros; try reflexivity; try discriminate.
Qed.

(** A run with every API down: it ends well, with status 200. *)
Lemma status_code_mirrors_success_witness :
  lambda_handler Sample.runtime Sample.apis_down JNull None
    = Ok {| statusCode := 200; body := "<json>";
            headers := [("Content-Type", "application/json")] |} /\
  (200 = 200 <->
   success (final_results Sample.runtime Sample.apis_down JNull None) = true) /\
  (200 = 500 <->
   success (final_results Sample.runtime Sample.apis_down JNull None) = false) /\
  "<json>" = json_dumps Sample.runtime
               (results_json (final_results Sample.runtime Sample.apis_down
                                JNull None)).
Proof.
  assert (lambda_handler Sample.runtime Sample.apis_down JNull None
          = Ok {| statusCode := 200; body := "<json>";
                  headers := [("Content-Type", "application/json")] |}) as E.
  { vm_compute. reflexivity. }
  split; [exact E | ].
  exact (status_code_mirrors_success Sample.runtime Sample.apis_down JNull None
           _ E).
Defined.

(** C2 (as amended).  The returned [success] flag is false exactly when an
    exception reaches the outer handler: the configuration is empty or has
    no ['data_sources'] mapping to iterate, or writing the execution summary
    after the source loop raises.  The source loop itself never raises and
    never changes [success], whatever fails for a source. *)
Theorem success_false_iff rt env event context :
  (success (final_results rt env event context) = false <->
   match data_sources_of (get_configuration rt env) with
   | None => True
   | Some items =>
       raises (fst (save_execution_summary rt env (get_configuration rt env)
                      (after_sources rt env context items))) = true
   end) /\
  (forall items st,
      fst (process_sources rt env items st) = Ok tt /\
      success (results (snd (process_sources rt env items st)))
        = success (results st)).
Proof.
  split.
  - rewrite final_results_eq. cbn [finished results set_end success].
    pose proof (guarded_outcome rt env (get_configuration rt env)
                  (started env context)) as G.
    destruct (data_sources_of (get_configuration rt env)) as [items | ].
    + cbv zeta in G. destruct G as [_ ->]. unfold after_sources.
      destruct (raises (fst (save_execution_summary rt env _ _))); cbn;
        split; intros; try reflexivity; try discriminate.
    + destruct G as [_ ->]. split; auto.
  - intros items st.
    destruct (process_sources_outcome rt env items st) as (st' & -> & S & _).
    split; [reflexivity | exact S].
Qed.

(** C2 (as stated) fails: the default configuration is loaded and has its
    three sources, every extraction returns [None], and the refused write of
    the execution summary alone makes the run fail with status 500. *)
Lemma summary_failure_fails_the_run :
  data_sources_of (get_configuration Sample.runtime Sample.apis_down_s3_denied)
    = Some Sample.default_sources /\
  lambda_handler Sample.runtime Sample.apis_down_s3_denied JNull None
    = Ok {| statusCode := 500; body := "<json>";
            headers := [("Content-Type", "application/json")] |} /\
  success (final_results Sample.runtime Sample.apis_down_s3_denied JNull None)
    = false /\
  errors (final_results Sample.runtime Sample.apis_down_s3_denied JNull None)
    = ["Fatal error: Invalid bucket name"].
Proof. repeat split; vm_compute; reflexivity. Qed.

(** C3, at the failing input.  The secret holds the JSON document
    [{"foo": 1}]: the missing ['data_sources'] is caught once inside the
    outer [try], and raised again by the log line after it, so the call
    raises instead of returning an envelope. *)
Theorem lambda_handler_raises_without_data_sources :
  get_configuration Sample.runtime Sample.secret_without_sources
    = JDict [("foo", JInt 1)] /\
  lambda_handler Sample.runtime Sample.secret_without_sources JNull None
    = Raise (mkExn KeyError "'data_sources'").
Proof. split; vm_compute; reflexivity. Qed.

Lemma unique_key_value (items : dict) k a b :
  NoDup (keys items) -> In (k, a) items -> In (k, b) items -> a = b.
Proof.
  induction items as [ | [k' v'] rest IH]; cbn; intros N Ha Hb; [contradiction | ].
  inversion N as [ | ? ? Hn N']; subst.
  assert (forall v, In (k', v) rest -> False) as Fresh.
  { intros v I. apply Hn. change k' with (fst (k', v)). now apply in_map. }
  destruct Ha as [Ha | Ha], Hb as [Hb | Hb].
  - congruence.
  - injection Ha as -> ->. destruct (Fresh _ Hb).
  - injection Hb as -> ->. destruct (Fresh _ Ha).
  - now apply IH.
Qed.

(** C1 (as amended).  In a run of [lambda_handler] over the configured
    sources, a source whose extraction returns [None] leaves no trace: its
    turn of the loop changes nothing (nothing is added to [total_records],
    no entry is appended to [errors], only a warning is logged), the loop
    gives the same outcome as without that source, and its name is not in
    the returned [sources_processed]. *)
Theorem none_extraction_leaves_no_trace rt env event context items
    source_name source_config :
  data_sources_of (get_configuration rt env) = Some items ->
  NoDup (keys items) ->
  In (source_name, source_config) items ->
  extract_data_safe rt env source_name source_config = Ok JNull ->
  (forall st,
      process_source rt env source_name source_config st = (Ok tt, st)) /\
  (forall before after st,
      items = (before ++ (source_name, source_config) :: after)%list ->
      process_sources rt env items st
      = process_sources rt env (before ++ after)%list st) /\
  ~ In source_name (sources_processed (final_results rt env event context)).
Proof.
  intros D N I E. split; [ | split].
  - intros st. now apply process_source_skips.
  - intros before after st ->. now apply process_sources_skip.
  - rewrite final_results_eq. cbn [finished results set_end sources_processed].
    pose proof (guarded_outcome rt env (get_configuration rt env)
                  (started env context)) as G.
    rewrite D in G. cbv zeta in G. destruct G as [-> _].
    destruct (process_sources_outcome rt env items (started env context))
      as (st' & -> & _ & P).
    cbn [snd]. intros H. destruct (P _ H) as [[] | (c & raw & Ic & Ec & T)].
    rewrite (unique_key_value items source_name c source_config N Ic I) in Ec.
    rewrite E in Ec. injection Ec as <-. discriminate T.
Qed.

(** The default sources with every API down, for 'marketing'. *)
Lemma none_extraction_leaves_no_trace_witness :
  data_sources_of (get_configuration Sample.runtime Sample.apis_down)
    = Some Sample.default_sources /\
  NoDup (keys Sample.default_sources) /\
  In ("marketing", Sample.marketing_config) Sample.default_sources /\
  extract_data_safe Sample.runtime Sample.apis_down "marketing"
    Sample.marketing_config = Ok JNull /\
  (forall st,
      process_source Sample.runtime Sample.apis_down "marketing"
        Sample.marketing_config st = (Ok tt, st)) /\
  (forall before after st,
      Sample.default_sources
        = (before ++ ("marketing", Sample.marketing_config) :: after)%list ->
      process_sources Sample.runtime Sample.apis_down Sample.default_sources st
      = process_sources Sample.runtime Sample.apis_down
          (before ++ after)%list st) /\
  ~ In "marketing"
      (sources_processed
         (final_results Sample.runtime Sample.apis_down JNull None)).
Proof.
  assert (NoDup (keys Sample.default_sources)) as N.
  { repeat constructor; cbn; intuition discriminate. }
  assert (In ("marketing", Sample.marketing_config) Sample.default_sources) as I.
  { left. reflexivity. }
  split; [reflexivity | ]. split; [exact N | ]. split; [exact I | ].
  split; [reflexivity | ].
  apply (none_extraction_leaves_no_trace Sample.runtime Sample.apis_down
           JNull None Sample.default_sources "marketing"
           Sample.marketing_config); [reflexivity | exact N | exact I | reflexivity].
Defined.

(** C1 (as stated) fails: with every API answering 500 the extraction of
    'marketing' returns [None], and the run ends with an empty [errors]
    list, so the source's name does not appear there. *)
Lemma none_extraction_is_no_error :
  data_sources_of (get_configuration Sample.runtime Sample.apis_down)
    = Some Sample.default_sources /\
  dict_get "marketing" Sample.default_sources
    = Some Sample.marketing_config /\
  extract_data_safe Sample.runtime Sample.apis_down "marketing"
    Sample.marketing_config = Ok JNull /\
  errors (final_results Sample.runtime Sample.apis_down JNull None) = [] /\
  total_records (final_results Sample.runtime Sample.apis_down JNull None) = 0 /\
  sources_processed (final_results Sample.runtime Sample.apis_down JNull None)
    = [].
Proof. repeat split; vm_compute; reflexivity. Qed.

(* ================================================================== *)
(** ** Further properties of extract_data_safe *)

Section ExtractFacts.

Variable rt : Runtime.
Variable env : Env.

Lemma default_limit_not_import config e :
  default_limit config = Raise e -> is_ImportError e = false.
Proof.
  unfold default_limit, py_get.
  destruct config; intros H; try discriminate H; injection H as <-; reflexivity.
Qed.

Lemma py_list_upto_not_import l stop e :
  py_list_upto l stop = Raise e -> is_ImportError e = false.
Proof.
  unfold py_list_upto, slice_stop.
  destruct stop; cbn; intros H; try discriminate H; injection H as <-; reflexivity.
Qed.

Lemma normalize_requests_not_import config data e :
  normalize_requests config data = Raise e -> is_ImportError e = false.
Proof.
  unfold normalize_requests.
  destruct data as [ | | | | | l | d]; try discriminate.
  - destruct (default_limit config) as [lim | e'] eqn:D; cbn.
    + destruct (py_list_upto l lim) as [l' | e'] eqn:U; cbn; [discriminate | ].
      intros H. injection H as <-. eapply py_list_upto_not_import; exact U.
    + intros H. injection H as <-. eapply default_limit_not_import; exact D.
  - destruct (dict_get "results" d); [discriminate | ].
    destruct (dict_get "data" d); [discriminate | ].
    destruct (dict_get "products" d); discriminate.
Qed.

(** The extraction, once a response has arrived. *)
Lemma extract_data_safe_fetched source_name config response :
  fetched rt env source_name config = Ok response ->
  extract_data_safe rt env source_name config =
  if negb (status_code response =? 200) then Ok JNull
  else
    match parsed rt env response with
    | None => Ok JNull
    | Some data =>
        match (if requests_importable env
               then normalize_requests config data
               else normalize_urllib3 config data) with
        | Ok v => Ok v
        | Raise _ => Ok JNull
        end
    end.
Proof.
  unfold fetched, parsed, extract_data_safe, extract_with_requests,
    extract_with_urllib3.
  destruct (requests_importable env); cbn [bind_py].
  - destruct (requests_target source_name config) as [t | e]; [ | discriminate].
    cbn [bind_py]. intros ->. cbn [bind_py].
    destruct (negb (status_code response =? 200)); [reflexivity | ].
    destruct (json_loads rt (text response)) as [data | ]; [ | reflexivity].
    destruct (normalize_requests config data) as [v | e] eqn:N; [reflexivity | ].
    now rewrite (normalize_requests_not_import _ _ _ N).
  - cbn [is_ImportError exn_cls].
    destruct (urllib3_url rt source_name config) as [u | e]; [ | discriminate].
    cbn [bind_py]. intros ->. cbn [bind_py].
    destruct (negb (status_code response =? 200)); [reflexivity | ].
    destruct (utf8_decode rt (text response)) as [s | ]; [ | reflexivity].
    destruct (json_loads rt s) as [data | ]; [ | reflexivity].
    destruct (normalize_urllib3 config data); reflexivity.
Qed.

End ExtractFacts.

(** X1.  Once a response has arrived, a status other than 200 or a body
    that does not parse as JSON makes [extract_data_safe] return [None], on
    either client path. *)
Theorem extract_none_on_bad_response rt env source_name config response :
  fetched rt env source_name config = Ok response ->
  status_code response <> 200 \/ parsed rt env response = None ->
  extract_data_safe rt env source_name config = Ok JNull.
Proof.
  intros F H. rewrite (extract_data_safe_fetched rt env _ _ _ F).
  destruct (status_code response =? 200) eqn:S; cbn [negb]; [ | reflexivity].
  destruct H as [H | H].
  - apply Z.eqb_eq in S. contradiction.
  - now rewrite H.
Qed.

Lemma extract_none_on_bad_response_witness :
  fetched Sample.runtime Sample.apis_down "sales" Sample.marketing_config
    = Ok {| status_code := 500; text := "" |} /\
  extract_data_safe Sample.runtime Sample.apis_down "sales"
    Sample.marketing_config = Ok JNull.
Proof.
  assert (fetched Sample.runtime Sample.apis_down "sales" Sample.marketing_config
          = Ok {| status_code := 500; text := "" |}) as F by reflexivity.
  split; [exact F | ].
  apply (extract_none_on_bad_response Sample.runtime Sample.apis_down "sales"
           Sample.marketing_config _ F).
  left. cbn. discriminate.
Defined.

(** X2.  A response with status 200 whose body is a JSON list is cut by
    [default_limit] as a Python slice cuts it: a limit [n >= 0] keeps the
    first [n] records (all of them when there are fewer), a negative limit
    drops the last [-n] records. *)
Theorem extract_list_is_sliced rt env source_name config response l n :
  fetched rt env source_name config = Ok response ->
  status_code response = 200 ->
  parsed rt env response = Some (JList l) ->
  default_limit config = Ok (JInt n) ->
  exists l',
    extract_data_safe rt env source_name config = Ok (JList l') /\
    (0 <= n -> l' = firstn (Z.to_nat n) l /\ Z.of_nat (List.length l') <= n) /\
    (n < 0 -> l' = firstn (List.length l - Z.to_nat (- n)) l).
Proof.
  intros F S P D. rewrite (extract_data_safe_fetched rt env _ _ _ F).
  rewrite S, P. cbn [Z.eqb Pos.eqb negb].
  assert (forall norm, norm = normalize_requests \/ norm = normalize_urllib3 ->
            norm config (JList l)
            = Ok (JList (firstn (if n <? 0
                                 then Z.to_nat (Z.of_nat (List.length l) + n)
                                 else Z.to_nat n) l))) as N.
  { intros norm [-> | ->]; unfold normalize_requests, normalize_urllib3;
      rewrite D; reflexivity. }
  exists (firstn (if n <? 0 then Z.to_nat (Z.of_nat (List.length l) + n)
                  else Z.to_nat n) l).
  split; [ | split].
  - destruct (requests_importable env); rewrite N by auto; reflexivity.
  - intros H. destruct (n <? 0) eqn:L; [apply Z.ltb_lt in L; lia | ].
    split; [reflexivity | ].
    pose proof (firstn_le_length (Z.to_nat n) l). lia.
  - intros H. apply Z.ltb_lt in H. rewrite H. f_equal. lia.
Qed.

Lemma extract_list_is_sliced_witness :
  exists l',
    extract_data_safe Sample.runtime
      (Sample.apis_answer true Sample.text_two_records) "inventory"
      (JDict [("url", JStr "https://example.org"); ("default_limit", JInt 1)])
      = Ok (JList l') /\
    (0 <= 1 -> l' = firstn (Z.to_nat 1)
                      [JDict [("id", JInt 1)]; JDict [("id", JInt 2)]] /\
               Z.of_nat (List.length l') <= 1) /\
    (1 < 0 -> l' = firstn (List.length
                             [JDict [("id", JInt 1)]; JDict [("id", JInt 2)]]
                           - Z.to_nat (- 1))
                     [JDict [("id", JInt 1)]; JDict [("id", JInt 2)]]).
Proof.
  apply (extract_list_is_sliced Sample.runtime
           (Sample.apis_answer true Sample.text_two_records) "inventory"
           (JDict [("url", JStr "https://example.org"); ("default_limit", JInt 1)])
           {| status_code := 200; text := Sample.text_two_records |}
           [JDict [("id", JInt 1)]; JDict [("id", JInt 2)]] 1);
    reflexivity.
Defined.

(** X3.  When [default_limit] holds something a slice does not accept (a
    string such as "10", a float, a list, a mapping), a response whose body
    is a JSON list is lost: the slice raises inside the [try] and
    [extract_data_safe] returns [None]. *)
Theorem extract_list_lost_on_bad_limit rt env source_name config response l v :
  fetched rt env source_name config = Ok response ->
  status_code response = 200 ->
  parsed rt env response = Some (JList l) ->
  default_limit config = Ok v ->
  index_like v = false ->
  extract_data_safe rt env source_name config = Ok JNull.
Proof.
  intros F S P D I. rewrite (extract_data_safe_fetched rt env _ _ _ F).
  rewrite S, P. cbn [Z.eqb Pos.eqb negb].
  unfold normalize_requests, normalize_urllib3. rewrite D. cbn [bind_py].
  unfold py_list_upto, slice_stop.
  destruct v; try discriminate I; destruct (requests_importable env); reflexivity.
Qed.

Lemma extract_list_lost_on_bad_limit_witness :
  default_limit limit_text = Ok (JStr "10") /\
  extract_data_safe Sample.runtime
    (Sample.apis_answer true Sample.text_two_records) "marketing" limit_text
  = Ok JNull.
Proof.
  split; [reflexivity | ].
  apply (extract_list_lost_on_bad_limit Sample.runtime
           (Sample.apis_answer true Sample.text_two_records) "marketing"
           limit_text {| status_code := 200; text := Sample.text_two_records |}
           [JDict [("id", JInt 1)]; JDict [("id", JInt 2)]] (JStr "10"));
    reflexivity.
Defined.

(** X4.  For 'marketing', 'sales' and 'crm' the request is built from the
    hard-coded endpoint and the limit alone: requests gets the endpoint's
    URL with the limit as its one query parameter, urllib3 gets the same
    URL with the same parameter in the query string, and the ['url'] of the
    source's config is not used. *)
Theorem known_source_request rt source_name config url param limit :
  endpoint_of source_name endpoints = Some (url, param) ->
  default_limit config = Ok limit ->
  requests_target source_name config = Ok (JStr url, [(param, limit)]) /\
  urllib3_url rt source_name config
    = Ok (JStr (url ++ "?" ++ param ++ "=" ++ py_str rt limit)).
Proof.
  unfold endpoints, endpoint_of, requests_target, urllib3_url. intros E D.
  rewrite D. cbn [bind_py].
  destruct (String.eqb source_name "marketing").
  { injection E as <- <-. split; reflexivity. }
  destruct (String.eqb source_name "sales").
  { injection E as <- <-. split; reflexivity. }
  destruct (String.eqb source_name "crm"); [ | discriminate E].
  injection E as <- <-. split; reflexivity.
Qed.

Lemma known_source_request_witness :
  endpoint_of "marketing" endpoints
    = Some ("https://fakestoreapi.com/products", "limit") /\
  default_limit marketing_elsewhere = Ok (JInt 5) /\
  requests_target "marketing" marketing_elsewhere
    = Ok (JStr "https://fakestoreapi.com/products", [("limit", JInt 5)]) /\
  urllib3_url Sample.runtime "marketing" marketing_elsewhere
    = Ok (JStr ("https://fakestoreapi.com/products" ++ "?" ++ "limit" ++ "="
                  ++ py_str Sample.runtime (JInt 5))).
Proof.
  split; [reflexivity | split; [reflexivity | ] ].
  apply (known_source_request Sample.runtime "marketing" marketing_elsewhere);
    reflexivity.
Defined.

(* ================================================================== *)
(** ** Further properties of transform_data *)

Section TransformMore.

Variable rt : Runtime.
Variable env : Env.

Lemma transform_loop_Forall source_name (P : json -> Prop) :
  (forall idx r st o st',
      transform_record rt env source_name idx r st = (Ok o, st') -> P o) ->
  forall records idx acc st out st',
    transform_loop rt env source_name idx records acc st = (Ok out, st') ->
    Forall P acc -> Forall P out.
Proof.
  intros HP. induction records as [ | r rest IH]; intros idx acc st out st' E A.
  - cbn in E. injection E as <- _. exact A.
  - cbn [transform_loop] in E.
    apply bind_inv_Ok in E as (o & st1 & E1 & E2).
    eapply IH; [exact E2 | ].
    apply Forall_app. split; [exact A | ].
    constructor; [ | constructor]. eapply HP; exact E1.
Qed.

Lemma transform_loop_state source_name :
  forall records idx acc st out st',
    transform_loop rt env source_name idx records acc st = (Ok out, st') ->
    ticks st' = (ticks st + 3 * List.length records)%nat /\
    bucket st' = bucket st /\ results st' = results st.
Proof.
  induction records as [ | r rest IH]; intros idx acc st out st' E.
  - cbn in E. injection E as _ <-. cbn. repeat split. lia.
  - cbn [transform_loop] in E.
    apply bind_inv_Ok in E as (o & st1 & E1 & E2).
    rewrite transform_record_eq in E1
      by (eapply transform_record_Ok_inv; exact E1).
    cbv zeta in E1.
    destruct (add_payload rt source_name r _); [ | discriminate E1].
    injection E1 as _ <-.
    destruct (IH _ _ _ _ _ E2) as (T & B & R).
    cbn [tick3 ticks bucket results List.length] in *. repeat split; auto. lia.
Qed.

Lemma transform_data_list_inv source_name raw st out st' :
  transform_data rt env source_name (JList raw) st = (Ok out, st') ->
  transform_loop rt env source_name 0 raw [] st = (Ok out, st').
Proof.
  unfold transform_data, lift. cbn [py_iter].
  now rewrite (bind_step_Ok _ _ st raw st) by reflexivity.
Qed.

Lemma substring_length n : forall s,
  (n <= String.length s)%nat -> String.length (substring 0 n s) = n.
Proof.
  induction n as [ | n IH]; intros s H.
  - destruct s; reflexivity.
  - destruct s as [ | c s]; cbn in *; [lia | ].
    rewrite IH by lia. reflexivity.
Qed.

Lemma add_payload_envelope_values source_name record record_id t1 t2 d :
  add_payload rt source_name record
    (envelope_of source_name record_id t1 t2 record) = Ok d ->
  dict_get "record_id" d = Some (JStr record_id) /\
  dict_get "extracted_at" d = Some (JStr (isoformat t1)) /\
  dict_get "extracted_date" d = Some (JStr (ymd t2)).
Proof.
  unfold add_payload. intros H.
  destruct (String.eqb source_name "marketing").
  { destruct (marketing_product rt record); [ | discriminate H].
    injection H as <-. cbn. repeat split; reflexivity. }
  destruct (String.eqb source_name "sales").
  { destruct (sales_sale record); [ | discriminate H].
    injection H as <-. cbn. repeat split; reflexivity. }
  destruct (String.eqb source_name "crm").
  { destruct (crm_customer rt record) as [[c | ] | e]; [ | | discriminate H];
      injection H as <-; cbn; repeat split; reflexivity. }
  injection H as <-. cbn. repeat split; reflexivity.
Qed.

End TransformMore.

(** X5.  With a digest of 32 characters, as md5 gives, every record that
    [transform_data] returns has a [record_id] of exactly 12 characters. *)
Theorem record_id_has_12_characters rt env source_name raw st out st' :
  (forall s, String.length (md5_hexdigest rt s) = 32%nat) ->
  transform_data rt env source_name (JList raw) st = (Ok out, st') ->
  Forall (fun o => exists record_id,
              py_getitem o "record_id" = Ok (JStr record_id) /\
              String.length record_id = 12%nat) out.
Proof.
  intros H E. apply transform_data_list_inv in E.
  eapply transform_loop_Forall; [ | exact E | constructor].
  intros idx r s o s' Eo.
  pose proof (transform_record_Ok_inv rt env _ _ _ _ _ _ Eo) as En.
  rewrite (transform_record_eq rt env _ _ _ _ En) in Eo. cbv zeta in Eo.
  destruct (add_payload rt source_name r _) as [d | e] eqn:P;
    [ | discriminate Eo].
  injection Eo as <- _.
  apply add_payload_envelope_values in P as (P & _ & _).
  eexists. split.
  - cbn [py_getitem]. rewrite P. reflexivity.
  - apply substring_length. rewrite H. lia.
Qed.

Lemma record_id_has_12_characters_witness :
  exists out st',
    transform_data Sample.runtime Sample.apis_down "sales"
      (JList [JDict [("id", JInt 7)]; JDict []]) boot = (Ok out, st') /\
    Forall (fun o => exists record_id,
                py_getitem o "record_id" = Ok (JStr record_id) /\
                String.length record_id = 12%nat) out.
Proof.
  do 2 eexists. split; [vm_compute; reflexivity | ].
  eapply (record_id_has_12_characters Sample.runtime Sample.apis_down "sales"
            [JDict [("id", JInt 7)]; JDict []] boot).
  - intros s. reflexivity.
  - vm_compute. reflexivity.
Defined.

(** X6.  For a source name other than 'marketing', 'sales' and 'crm' that
    can be encoded to UTF-8, [transform_data] returns for every list of
    records, whatever they are, and each output record is the bare
    envelope: exactly the keys [record_id], [source], [extracted_at],
    [extracted_date] and [raw_data], no nested payload.  For a name that
    cannot be encoded (it holds a surrogate) it raises the encoding's
    exception at the first record, the clock read once, and returns the
    empty list for the empty list. *)
Theorem unknown_source_bare_envelope rt env source_name raw st :
  known_source source_name = false ->
  match py_encode source_name with
  | Ok _ =>
      exists out st',
        transform_data rt env source_name (JList raw) st = (Ok out, st') /\
        List.length out = List.length raw /\
        Forall (fun o => exists d, o = JDict d /\ keys d = envelope_keys) out
  | Raise e =>
      transform_data rt env source_name (JList raw) st
      = match raw with
        | [] => (Ok [], st)
        | _ :: _ => (Raise e, tick1 st)
        end
  end.
Proof.
  intros K.
  assert (transform_data rt env source_name (JList raw) st
          = transform_loop rt env source_name 0 raw [] st) as TD.
  { unfold transform_data, lift. cbn [py_iter].
    now rewrite (bind_step_Ok _ _ st raw st) by reflexivity. }
  destruct (py_encode source_name) as [[] | e] eqn:En.
  2:{ rewrite TD. destruct raw as [ | r rest]; [reflexivity | ].
      cbn [transform_loop]. unfold bind.
      now rewrite (transform_record_unencodable rt env _ _ _ _ _ En). }
  assert (forall records idx acc st0,
             exists out st',
               transform_loop rt env source_name idx records acc st0
                 = (Ok out, st') /\
               List.length out = (List.length acc + List.length records)%nat)
    as L.
  { induction records as [ | r rest IH]; intros idx acc st0.
    - exists acc, st0. split; [reflexivity | cbn; lia].
    - cbn [transform_loop]. unfold bind at 1.
      rewrite (transform_record_eq rt env _ _ _ _ En). cbv zeta.
      rewrite add_payload_unknown by exact K.
      destruct (IH (S idx) (acc ++ [JDict (envelope_of source_name
                  (substring 0 12 (md5_hexdigest rt
                     (source_name ++ "_" ++ str_of_nat idx ++ "_"
                        ++ isoformat (clock env (ticks st0)) ++ "_"
                        ++ json_dumps rt r)))
                  (clock env (S (ticks st0))) (clock env (S (S (ticks st0))))
                  r)])%list (tick3 st0)) as (out & st' & E & N).
      exists out, st'. split; [exact E | ].
      rewrite N, length_app. cbn. lia. }
  destruct (L raw 0%nat [] st) as (out & st' & E & N).
  exists out, st'. split; [ | split].
  - rewrite TD. exact E.
  - exact N.
  - eapply transform_loop_Forall; [ | exact E | constructor].
    intros idx r s o s'. rewrite (transform_record_eq rt env _ _ _ _ En).
    cbv zeta. rewrite add_payload_unknown by exact K.
    intros Eo. injection Eo as <- _. eexists. split; reflexivity.
Qed.

(** The name 'inventory', and the name that is one surrogate. *)
Lemma unknown_source_bare_envelope_witness :
  (exists out st',
      transform_data Sample.runtime Sample.apis_down "inventory"
        (JList [JInt 3; JNull; JDict [("price", JNull)]]) boot
      = (Ok out, st') /\
      List.length out = List.length [JInt 3; JNull; JDict [("price", JNull)]] /\
      Forall (fun o => exists d, o = JDict d /\ keys d = envelope_keys) out) /\
  transform_data Sample.runtime Sample.apis_down surrogate_name
    (JList [JInt 3; JNull]) boot
  = (Raise (mkExn UnicodeEncodeError
              ("'utf-8' codec can't encode character '\udc00' "
                 ++ "in position 0: surrogates not allowed")),
     tick1 boot).
Proof.
  split.
  - apply (unknown_source_bare_envelope Sample.runtime Sample.apis_down
             "inventory" [JInt 3; JNull; JDict [("price", JNull)]] boot).
    reflexivity.
  - apply (unknown_source_bare_envelope Sample.runtime Sample.apis_down
             surrogate_name [JInt 3; JNull] boot).
    reflexivity.
Defined.

(** X7.  A call of [transform_data] that returns has read the clock three
    times per record and done nothing else to the world: no object is
    written and the [results] dictionary is untouched. *)
Theorem transform_data_only_reads_clock rt env source_name raw st out st' :
  transform_data rt env source_name (JList raw) st = (Ok out, st') ->
  ticks st' = (ticks st + 3 * List.length raw)%nat /\
  bucket st' = bucket st /\
  results st' = results st.
Proof.
  intros E. apply transform_data_list_inv in E.
  eapply transform_loop_state; exact E.
Qed.

Lemma transform_data_only_reads_clock_witness :
  exists out st',
    transform_data Sample.runtime Sample.apis_down "crm"
      (JList (map JDict Sample.crm_records)) boot = (Ok out, st') /\
    ticks st' = (ticks boot + 3 * List.length (map JDict Sample.crm_records))%nat /\
    bucket st' = bucket boot /\
    results st' = results boot.
Proof.
  do 2 eexists. split; [vm_compute; reflexivity | ].
  eapply (transform_data_only_reads_clock Sample.runtime Sample.apis_down "crm"
            (map JDict Sample.crm_records) boot).
  vm_compute. reflexivity.
Defined.

(* ================================================================== *)
(** ** Further properties of the loader and of the handler *)

Lemma keeps_bucket_ret {A} (a : A) : keeps_bucket (ret a).
Proof. intros st. reflexivity. Qed.

Lemma keeps_bucket_raise {A} (e : exn) : keeps_bucket (@raise A e).
Proof. intros st. reflexivity. Qed.

Lemma keeps_bucket_lift {A} (c : py A) : keeps_bucket (lift c).
Proof. intros st. reflexivity. Qed.

Lemma keeps_bucket_now env : keeps_bucket (datetime_now env).
Proof. intros st. reflexivity. Qed.

Lemma keeps_bucket_bind {A B} (c : M A) (k : A -> M B) :
  keeps_bucket c -> (forall a, keeps_bucket (k a)) -> keeps_bucket (bind c k).
Proof.
  intros Hc Hk st. unfold bind.
  specialize (Hc st). destruct (c st) as [[a | e] st1]; cbn in *.
  - rewrite (Hk a st1). exact Hc.
  - exact Hc.
Qed.

#[local] Hint Resolve keeps_bucket_ret keeps_bucket_raise keeps_bucket_lift
  keeps_bucket_now : keeps.

Ltac keeps_bucket_step :=
  first
    [ apply keeps_bucket_bind; [ | intro ]
    | solve [ auto with keeps ]
    | match goal with
      | |- keeps_bucket (if ?b then _ else _) => destruct b
      | |- keeps_bucket (match ?x with _ => _ end) => destruct x
      end ].

Lemma prefix_empty s : String.prefix "" s = true.
Proof. destruct s; reflexivity. Qed.

Lemma prefix_append a : forall b c, String.prefix (a ++ b) (a ++ c) = String.prefix b c.
Proof.
  induction a as [ | x a IH]; intros b c; cbn; [reflexivity | ].
  destruct (ascii_dec x x) as [_ | N]; [apply IH | now destruct N].
Qed.

Section LoaderFacts.

Variable rt : Runtime.
Variable env : Env.

Lemma transform_data_keeps_bucket source_name raw_data :
  keeps_bucket (transform_data rt env source_name raw_data).
Proof.
  unfold transform_data. apply keeps_bucket_bind; [apply keeps_bucket_lift | ].
  intros records. generalize 0%nat, (@nil json).
  induction records as [ | r rest IH]; intros idx acc; cbn [transform_loop].
  - apply keeps_bucket_ret.
  - apply keeps_bucket_bind; [ | intro; apply IH].
    unfold transform_record. repeat keeps_bucket_step.
Qed.

(** [load_to_s3] reads the clock three times, builds one object and hands
    it to S3. *)
Lemma load_to_s3_cases source_name data st :
  exists o,
    obj_bucket o = BUCKET_NAME env /\
    obj_body o = json_dumps_indent rt (JList data) /\
    obj_content_type o = "application/json" /\
    metadata_get "source" (obj_metadata o) = Some source_name /\
    metadata_get "record_count" (obj_metadata o)
      = Some (str_of_nat (List.length data)) /\
    String.prefix ("data/" ++ source_name ++ "/date=") (obj_key o) = true /\
    load_to_s3 rt env source_name data st =
    match put_object_error env o with
    | Some e => (Raise e, tick3 st)
    | None => (Ok (obj_key o),
               {| ticks := ticks (tick3 st); bucket := o :: bucket st;
                  results := results st |})
    end.
Proof.
  unfold load_to_s3, bind, datetime_now, put_object, ret, tick3.
  cbn [ticks bucket results].
  match goal with
  | |- context [put_object_error env
                  {| obj_bucket := ?a; obj_key := ?b; obj_body := ?c;
                     obj_content_type := ?d; obj_metadata := ?m |}] =>
      exists {| obj_bucket := a; obj_key := b; obj_body := c;
                obj_content_type := d; obj_metadata := m |}
  end.
  cbn [obj_bucket obj_body obj_content_type obj_metadata obj_key
       metadata_get String.eqb Ascii.eqb Bool.eqb].
  repeat split.
  - change ("data/" ++ source_name ++ "/date=")
      with ("data/" ++ (source_name ++ "/date=")).
    rewrite prefix_append, prefix_append.
    rewrite (prefix_append "/date=" "" _). apply prefix_empty.
  - destruct (put_object_error env _); reflexivity.
Qed.

End LoaderFacts.

(** X8.  [load_to_s3] makes exactly one S3 write.  When it returns, the
    key it returns is the key of the one object added to the bucket, which
    lies under [data/<source>/date=], holds the serialized records and
    carries their count as metadata; when the write is refused, the
    exception is that of S3 and the bucket is as before. *)
Theorem load_to_s3_writes_once rt env source_name data st :
  match load_to_s3 rt env source_name data st with
  | (Ok key, st') =>
      exists o,
        bucket st' = o :: bucket st /\
        obj_key o = key /\
        String.prefix ("data/" ++ source_name ++ "/date=") key = true /\
        obj_body o = json_dumps_indent rt (JList data) /\
        metadata_get "record_count" (obj_metadata o)
          = Some (str_of_nat (List.length data)) /\
        put_object_error env o = None
  | (Raise e, st') =>
      bucket st' = bucket st /\
      exists o, put_object_error env o = Some e
  end.
Proof.
  destruct (load_to_s3_cases rt env source_name data st)
    as (o & _ & Hb & _ & _ & Hc & Hk & ->).
  destruct (put_object_error env o) as [e | ] eqn:P.
  - split; [reflexivity | eauto].
  - exists o. repeat split; auto.
Qed.

Section LoopFacts.

Variable rt : Runtime.
Variable env : Env.

(** One turn of the source loop, case by case. *)
Lemma process_source_cases source_name source_config st :
  match extract_data_safe rt env source_name source_config with
  | Raise _ => False
  | Ok raw_data =>
      if truthy raw_data then
        match transform_data rt env source_name raw_data st with
        | (Raise e, st1) =>
            process_source rt env source_name source_config st
            = (Ok tt, with_results (add_error (source_error source_name e)) st1)
        | (Ok transformed_data, st1) =>
            match load_to_s3 rt env source_name transformed_data st1 with
            | (Raise e, st2) =>
                process_source rt env source_name source_config st
                = (Ok tt,
                   with_results (add_error (source_error source_name e)) st2)
            | (Ok file_path, st2) =>
                process_source rt env source_name source_config st
                = (Ok tt,
                   with_results
                     (mark_processed source_name
                        (List.length transformed_data) file_path) st2)
            end
        end
      else process_source rt env source_name source_config st = (Ok tt, st)
  end.
Proof.
  pose proof (extract_data_safe_never_raises rt env source_name source_config) as NR.
  destruct (extract_data_safe rt env source_name source_config) as [raw | e] eqn:E;
    [clear NR | discriminate NR].
  assert (forall body : M unit,
             process_source rt env source_name source_config st
             = try_except
                 (if truthy raw
                  then
                    transformed_data <~ transform_data rt env source_name raw ;;
                    file_path <~ load_to_s3 rt env source_name transformed_data ;;
                    update_results (add_source_processed source_name) ;;;
                    update_results
                      (add_total_records
                         (Z.of_nat (List.length transformed_data))) ;;;
                    update_results (add_file_created file_path)
                  else ret tt)
                 (fun e => update_results
                             (add_error (source_error source_name e))) st) as P.
  { intros _. unfold process_source, try_except. unfold bind at 1.
    unfold lift at 1. rewrite E. reflexivity. }
  specialize (P (ret tt)).
  destruct (truthy raw); [ | exact P].
  destruct (transform_data rt env source_name raw st) as [[td | e] st1] eqn:T.
  2:{ rewrite P. unfold try_except, bind. rewrite T. reflexivity. }
  destruct (load_to_s3 rt env source_name td st1) as [[fp | e] st2] eqn:L.
  - rewrite P. unfold try_except, bind. rewrite T, L. reflexivity.
  - rewrite P. unfold try_except, bind. rewrite T, L. reflexivity.
Qed.

Lemma per_source_error source_name e : per_source (source_error source_name e).
Proof.
  unfold per_source, source_error.
  rewrite (prefix_append "Error processing " "" _). apply prefix_empty.
Qed.

(** What one turn does to the books. *)
Lemma process_source_step source_name source_config st :
  exists st',
    process_source rt env source_name source_config st = (Ok tt, st') /\
    same_header (results st) (results st') /\
    (ledger st -> ledger st') /\
    (exists new, errors (results st') = (errors (results st) ++ new)%list /\
                 Forall per_source new) /\
    (List.length (sources_processed (results st'))
       + List.length (errors (results st'))
     = List.length (sources_processed (results st))
       + List.length (errors (results st))
       + (if delivers rt env (source_name, source_config) then 1 else 0))%nat.
Proof.
  pose proof (process_source_cases source_name source_config st) as C.
  unfold delivers. cbn [fst snd].
  destruct (extract_data_safe rt env source_name source_config) as [raw | e];
    [ | contradiction].
  destruct (truthy raw).
  2:{ exists st. split; [exact C | ]. split; [repeat split | ].
      split; [auto | ]. split; [ | lia].
      exists []. split; [now rewrite app_nil_r | constructor]. }
  pose proof (transform_data_keeps rt env source_name raw st) as K1.
  pose proof (transform_data_keeps_bucket rt env source_name raw st) as B1.
  destruct (transform_data rt env source_name raw st) as [[td | e] st1];
    cbn [snd] in K1, B1.
  2:{ eexists. split; [exact C | ].
      unfold with_results, ledger, written_keys, same_header.
      cbn [results bucket ticks]. rewrite K1, B1.
      cbn [add_error execution_id start_time end_time duration_seconds success
           sources_processed errors files_created].
      split; [repeat split | ]. split; [auto | ]. split.
      - eexists. split; [reflexivity | ].
        constructor; [apply per_source_error | constructor].
      - rewrite length_app. cbn. lia. }
  destruct (load_to_s3_cases rt env source_name td st1)
    as (o & _ & _ & _ & _ & _ & _ & L).
  rewrite L in C.
  destruct (put_object_error env o) as [e | ].
  - eexists. split; [exact C | ].
    unfold with_results, ledger, written_keys, same_header, tick3.
    cbn [results bucket ticks]. rewrite K1, B1.
    cbn [add_error execution_id start_time end_time duration_seconds success
         sources_processed errors files_created].
    split; [repeat split | ]. split; [auto | ]. split.
    + eexists. split; [reflexivity | ].
      constructor; [apply per_source_error | constructor].
    + rewrite length_app. cbn. lia.
  - eexists. split; [exact C | ].
    unfold with_results, ledger, written_keys, same_header, tick3, mark_processed.
    cbn [results bucket ticks]. rewrite K1, B1.
    cbn [add_file_created add_total_records add_source_processed
         execution_id start_time end_time duration_seconds success
         sources_processed errors files_created map rev].
    split; [repeat split | ]. split; [ | split].
    + intros [H1 H2]. split; [now rewrite H1 | ].
      rewrite !length_app, H2. reflexivity.
    + exists []. split; [now rewrite app_nil_r | constructor].
    + rewrite length_app. cbn. lia.
Qed.

(** The same for the whole loop. *)
Lemma process_sources_step items :
  forall st,
  exists st',
    process_sources rt env items st = (Ok tt, st') /\
    same_header (results st) (results st') /\
    (ledger st -> ledger st') /\
    (exists new, errors (results st') = (errors (results st) ++ new)%list /\
                 Forall per_source new) /\
    (List.length (sources_processed (results st'))
       + List.length (errors (results st'))
     = List.length (sources_processed (results st))
       + List.length (errors (results st))
       + List.length (filter (delivers rt env) items))%nat.
Proof.
  induction items as [ | [n c] rest IH]; intros st.
  - exists st. split; [reflexivity | ]. split; [repeat split | ].
    split; [auto | ]. split; [ | cbn; lia].
    exists []. split; [now rewrite app_nil_r | constructor].
  - destruct (process_source_step n c st) as (st1 & E1 & H1 & L1 & (n1 & X1 & F1) & C1).
    destruct (IH st1) as (st' & E' & H' & L' & (n' & X' & F') & C').
    exists st'. cbn [process_sources].
    rewrite (bind_step_Ok _ _ _ _ _ E1). split; [exact E' | ].
    split; [ | split; [auto | split] ].
    + destruct H1 as (a1 & a2 & a3 & a4 & a5), H' as (b1 & b2 & b3 & b4 & b5).
      repeat split; congruence.
    + exists (n1 ++ n')%list. split.
      * rewrite X', X1. now rewrite app_assoc.
      * apply Forall_app. split; assumption.
    + cbn [filter]. destruct (delivers rt env (n, c)); cbn [List.length]; lia.
Qed.

End LoopFacts.

Section RunFacts.

Variable rt : Runtime.
Variable env : Env.

(** With a usable configuration [save_execution_summary] reads the clock
    three times, builds the summary of the [results] it finds and hands one
    object to S3. *)
Lemma save_execution_summary_cases config items st :
  data_sources_of config = Some items ->
  exists o summary,
    obj_body o = json_dumps_indent rt (JDict summary) /\
    dict_get "success" summary = Some (JBool (success (results st))) /\
    dict_get "duration_seconds" summary
      = Some (opt_json JFloat (duration_seconds (results st))) /\
    dict_get "files_created" summary
      = Some (JList (map JStr (files_created (results st)))) /\
    String.prefix "metadata/executions/date=" (obj_key o) = true /\
    save_execution_summary rt env config st =
    match put_object_error env o with
    | Some e => (Raise e, tick3 st)
    | None => (Ok (obj_key o),
               {| ticks := ticks (tick3 st); bucket := o :: bucket st;
                  results := results st |})
    end.
Proof.
  intros H. apply data_sources_of_inv in H as (d & -> & E).
  unfold save_execution_summary, bind, get_results, datetime_now, lift,
    put_object, ret, tick3, py_get.
  rewrite E. cbn [bind_py py_len ticks bucket results].
  match goal with
  | |- context [put_object_error env
                  {| obj_bucket := ?a; obj_key := ?b;
                     obj_body := json_dumps_indent rt (JDict ?c);
                     obj_content_type := ?t; obj_metadata := ?m |}] =>
      exists {| obj_bucket := a; obj_key := b;
                obj_body := json_dumps_indent rt (JDict c);
                obj_content_type := t; obj_metadata := m |}, c
  end.
  cbn [obj_body obj_key].
  split; [reflexivity | ]. split; [reflexivity | ].
  split; [reflexivity | ]. split; [reflexivity | ].
  split.
  - rewrite (prefix_append "metadata/executions/date=" "" _). apply prefix_empty.
  - destruct (put_object_error env _); reflexivity.
Qed.

(** The state the outer [try] leaves. *)
Lemma guarded_cases config st :
  match data_sources_of config with
  | Some items =>
      match save_execution_summary rt env config
              (snd (process_sources rt env items st)) with
      | (Ok p, st2) =>
          snd (guarded rt env config st)
          = with_results (add_file_created p) st2
      | (Raise e, st2) =>
          snd (guarded rt env config st) = with_results (mark_fatal e) st2
      end
  | None =>
      exists e, snd (guarded rt env config st) = with_results (mark_fatal e) st
  end.
Proof.
  unfold guarded, try_except.
  destruct (data_sources_of config) as [items | ] eqn:D.
  - rewrite (run_pipeline_ready rt env config items st D). unfold bind.
    destruct (save_execution_summary rt env config
                (snd (process_sources rt env items st))) as [[p | e] st2];
      reflexivity.
  - destruct (run_pipeline_not_ready rt env config st D) as (e & ->).
    exists e. reflexivity.
Qed.

Lemma final_state_eq event context :
  final_state rt env event context
  = finished env (snd (guarded rt env (get_configuration rt env)
                         (started env context))).
Proof.
  unfold final_state. rewrite lambda_handler_m_eq. cbv zeta.
  destruct (if truthy (get_configuration rt env)
            then count_data_sources (get_configuration rt env) else Ok 0);
    reflexivity.
Qed.

Lemma final_results_state event context :
  final_results rt env event context
  = results (final_state rt env event context).
Proof. reflexivity. Qed.

Lemma started_ledger context : ledger (started env context).
Proof. split; reflexivity. Qed.

(** The books when the outer [try] is over, in its three outcomes. *)
Lemma guarded_books config context :
  let st := snd (guarded rt env config (started env context)) in
  written_keys st = files_created (results st) /\
  List.length (files_created (results st))
    = (List.length (sources_processed (results st))
       + (if success (results st) then 1 else 0))%nat /\
  (if success (results st)
   then Forall per_source (errors (results st))
   else exists earlier e,
          errors (results st)
            = (earlier ++ [String.append "Fatal error: " (exn_str e)])%list /\
          Forall per_source earlier) /\
  (forall items, data_sources_of config = Some items ->
     (List.length (sources_processed (results st))
        + List.length (errors (results st))
      = List.length (filter (delivers rt env) items)
        + (if success (results st) then 0 else 1))%nat).
Proof.
  cbv zeta. pose proof (guarded_cases config (started env context)) as G.
  destruct (data_sources_of config) as [items | ] eqn:D.
  - destruct (process_sources_step rt env items (started env context))
      as (st1 & E1 & H1 & L1 & (new & X1 & F1) & C1).
    rewrite E1 in G. cbn [snd] in G.
    destruct (L1 (started_ledger context)) as [W1 N1].
    destruct H1 as (_ & _ & _ & _ & S1).
    cbn [started results initial_results success errors sources_processed
         app List.length] in S1, X1, C1.
    destruct (save_execution_summary_cases config items st1 D)
      as (o & summary & _ & _ & _ & _ & _ & Sv).
    rewrite Sv in G. destruct (put_object_error env o) as [e | ].
    + rewrite G. unfold with_results, mark_fatal, written_keys, tick3.
      cbn [results bucket ticks add_error set_success success errors
           files_created sources_processed].
      unfold written_keys in W1.
      split; [exact W1 | ]. split; [lia | ]. split.
      * exists new, e. rewrite X1. split; [reflexivity | exact F1].
      * intros items' Hi. injection Hi as <-. rewrite length_app. cbn. lia.
    + rewrite G. unfold with_results, written_keys, tick3.
      cbn [results bucket ticks add_file_created success errors
           files_created sources_processed map rev].
      unfold written_keys in W1. rewrite S1.
      split; [now rewrite W1 | ]. split; [rewrite length_app; cbn; lia | ].
      split; [rewrite X1; exact F1 | ].
      intros items' Hi. injection Hi as <-. lia.
  - destruct G as (e & ->). unfold with_results, mark_fatal, written_keys.
    cbn. split; [reflexivity | ]. split; [reflexivity | ]. split.
    + exists [], e. split; [reflexivity | constructor].
    + intros items' Hi. discriminate Hi.
Qed.

End RunFacts.

(** X9.  When the call ends, [files_created] lists exactly the keys of the
    objects written to the bucket during the run, in the order they were
    written: no key is reported that was not written, no write goes
    unreported. *)
Theorem files_created_are_the_written_keys rt env event context :
  written_keys (final_state rt env event context)
  = files_created (final_results rt env event context).
Proof.
  rewrite final_results_state, final_state_eq.
  destruct (guarded_books rt env (get_configuration rt env) context)
    as (W & _).
  unfold finished, written_keys in *. cbn [bucket results set_end files_created].
  exact W.
Qed.

(** X10.  The returned result lists one file per processed source, and one
    more, the execution summary, exactly when [success] is true. *)
Theorem one_file_per_source_plus_summary rt env event context :
  List.length (files_created (final_results rt env event context))
  = (List.length (sources_processed (final_results rt env event context))
     + (if success (final_results rt env event context) then 1 else 0))%nat.
Proof.
  rewrite final_results_state, final_state_eq.
  destruct (guarded_books rt env (get_configuration rt env) context)
    as (_ & N & _).
  unfold finished. cbn [results set_end files_created sources_processed success].
  exact N.
Qed.

(** X11.  The [errors] list tells how the run ended.  When [success] is
    true every entry is a per-source entry, starting with
    "Error processing "; when it is false the last entry, and only the
    last, is the "Fatal error: " entry of the outer handler.  No per-source
    entry starts with "Fatal error: ". *)
Theorem errors_tell_success rt env event context :
  (if success (final_results rt env event context)
   then Forall per_source (errors (final_results rt env event context))
   else exists earlier e,
          errors (final_results rt env event context)
            = (earlier ++ [String.append "Fatal error: " (exn_str e)])%list /\
          Forall per_source earlier) /\
  (forall msg, per_source msg -> String.prefix "Fatal error: " msg = false).
Proof.
  split.
  - rewrite final_results_state, final_state_eq.
    destruct (guarded_books rt env (get_configuration rt env) context)
      as (_ & _ & E & _).
    unfold finished. cbn [results set_end errors success]. exact E.
  - unfold per_source. intros [ | c msg] H; [discriminate H | ].
    change (String.prefix "Error processing " (String c msg))
      with (if ascii_dec "E" c
            then String.prefix "rror processing " msg else false) in H.
    change (String.prefix "Fatal error: " (String c msg))
      with (if ascii_dec "F" c
            then String.prefix "atal error: " msg else false).
    destruct (ascii_dec "E" c) as [<- | _]; [ | discriminate H].
    destruct (ascii_dec "F" "E") as [N | _]; [discriminate N | reflexivity].
Qed.

(** X12.  With a usable configuration every source that delivered data is
    accounted for exactly once, as processed or by an error entry: the
    processed sources and the error entries together number the delivering
    sources, plus one for the fatal entry when [success] is false. *)
Theorem delivering_sources_are_accounted_for rt env event context items :
  data_sources_of (get_configuration rt env) = Some items ->
  (List.length (sources_processed (final_results rt env event context))
     + List.length (errors (final_results rt env event context))
   = List.length (filter (delivers rt env) items)
     + (if success (final_results rt env event context) then 0 else 1))%nat.
Proof.
  intros D. rewrite final_results_state, final_state_eq.
  destruct (guarded_books rt env (get_configuration rt env) context)
    as (_ & _ & _ & A).
  unfold finished. cbn [results set_end errors success sources_processed].
  exact (A items D).
Qed.

Lemma delivering_sources_are_accounted_for_witness :
  data_sources_of (get_configuration Sample.runtime Sample2.data_writes_denied)
    = Some Sample.default_sources /\
  filter (delivers Sample.runtime Sample2.data_writes_denied)
    Sample.default_sources = Sample.default_sources /\
  sources_processed
    (final_results Sample.runtime Sample2.data_writes_denied JNull None) = [] /\
  (List.length (sources_processed
                  (final_results Sample.runtime Sample2.data_writes_denied
                     JNull None))
     + List.length (errors
                      (final_results Sample.runtime Sample2.data_writes_denied
                         JNull None))
   = List.length (filter (delivers Sample.runtime Sample2.data_writes_denied)
                    Sample.default_sources)
     + (if success (final_results Sample.runtime Sample2.data_writes_denied
                      JNull None) then 0 else 1))%nat.
Proof.
  split; [reflexivity | ]. split; [vm_compute; reflexivity | ].
  split; [vm_compute; reflexivity | ].
  apply (delivering_sources_are_accounted_for Sample.runtime
           Sample2.data_writes_denied JNull None Sample.default_sources).
  reflexivity.
Defined.

Lemma lambda_handler_on_typed rt env event context :
  lambda_handler_on rt env event (context_of context)
  = lambda_handler rt env event context /\
  final_state_on rt env event (context_of context)
  = final_state rt env event context.
Proof. destruct context; split; reflexivity. Qed.

(** X13.  [lambda_handler] raises in exactly two cases: the context is an
    object that is not falsy and has no [request_id], which line 59 reads
    outside every [try]; or the configuration it loaded is non-empty and
    [len(config['data_sources'])] raises on it, in the log line after the
    outer [try].  In every other case it returns an envelope, in
    particular, for a context that is [None] or has a [request_id],
    whenever ['data_sources'] is a mapping. *)
Theorem lambda_handler_raises_iff rt env event context :
  raises (lambda_handler_on rt env event context)
  = match context with
    | ContextWithout _ => true
    | _ => truthy (get_configuration rt env)
           && raises (count_data_sources (get_configuration rt env))
    end /\
  match data_sources_of (get_configuration rt env) with
  | Some _ =>
      forall typed,
        raises (lambda_handler_on rt env event (context_of typed)) = false
  | None => True
  end.
Proof.
  assert (forall typed,
             raises (lambda_handler rt env event typed)
             = truthy (get_configuration rt env)
               && raises (count_data_sources (get_configuration rt env))) as R.
  { intros typed. rewrite lambda_handler_eq.
    destruct (truthy (get_configuration rt env)); cbn [andb]; [ | reflexivity].
    destruct (count_data_sources (get_configuration rt env)); reflexivity. }
  split.
  - destruct context as [ | class_name | c]; [apply (R None) | reflexivity | ].
    apply (R (Some c)).
  - destruct (data_sources_of (get_configuration rt env)) as [items | ] eqn:D;
      [ | exact I].
    intros typed.
    destruct (lambda_handler_on_typed rt env event typed) as [-> _].
    rewrite R. apply data_sources_of_inv in D as (d & -> & E).
    unfold count_data_sources, py_getitem. rewrite E. cbn.
    apply andb_false_r.
Qed.

(** X14.  When the transformation or the S3 write of a source raises, the
    loop records it and goes on: the turn itself does not raise, it appends
    the one entry "Error processing <name>: <message>" to [errors], leaves
    [sources_processed], [total_records] and [files_created] as they were,
    and no object has been written. *)
Theorem failed_stage_is_recorded rt env source_name source_config raw_data
    st e :
  extract_data_safe rt env source_name source_config = Ok raw_data ->
  truthy raw_data = true ->
  stage_failure rt env source_name raw_data st = Some e ->
  exists st',
    process_source rt env source_name source_config st = (Ok tt, st') /\
    results st' = add_error (source_error source_name e) (results st) /\
    bucket st' = bucket st.
Proof.
  intros E T F.
  pose proof (process_source_cases rt env source_name source_config st) as C.
  rewrite E, T in C. unfold stage_failure in F.
  pose proof (transform_data_keeps rt env source_name raw_data st) as K1.
  pose proof (transform_data_keeps_bucket rt env source_name raw_data st) as B1.
  destruct (transform_data rt env source_name raw_data st) as [[td | e1] st1];
    cbn [snd] in K1, B1.
  2:{ injection F as ->. eexists. split; [exact C | ].
      unfold with_results. cbn [results bucket]. rewrite K1. auto. }
  destruct (load_to_s3_cases rt env source_name td st1)
    as (o & _ & _ & _ & _ & _ & _ & L).
  rewrite L in C, F. destruct (put_object_error env o) as [e2 | ];
    [ | discriminate F].
  injection F as ->. eexists. split; [exact C | ].
  unfold with_results, tick3. cbn [results bucket]. rewrite K1. auto.
Qed.

Lemma failed_stage_is_recorded_witness :
  extract_data_safe Sample.runtime Sample2.data_writes_denied "marketing"
    Sample.marketing_config = Ok Sample2.two_records /\
  stage_failure Sample.runtime Sample2.data_writes_denied "marketing"
    Sample2.two_records boot = Some (mkExn ClientError "AccessDenied") /\
  exists st',
    process_source Sample.runtime Sample2.data_writes_denied "marketing"
      Sample.marketing_config boot = (Ok tt, st') /\
    results st'
      = add_error (source_error "marketing" (mkExn ClientError "AccessDenied"))
          (results boot) /\
    bucket st' = bucket boot.
Proof.
  split; [vm_compute; reflexivity | ]. split; [vm_compute; reflexivity | ].
  apply (failed_stage_is_recorded Sample.runtime Sample2.data_writes_denied
           "marketing" Sample.marketing_config Sample2.two_records boot);
    vm_compute; reflexivity.
Defined.

(** X15.  When a source delivers a non-empty list of records and neither
    the transformation nor the S3 write raises, its turn writes one object,
    appends the source's name to [sources_processed] and the object's key
    to [files_created], and adds the number of delivered records to
    [total_records]. *)
Theorem loaded_source_is_counted rt env source_name source_config raw st :
  extract_data_safe rt env source_name source_config = Ok (JList raw) ->
  raw <> [] ->
  stage_failure rt env source_name (JList raw) st = None ->
  exists st' o,
    process_source rt env source_name source_config st = (Ok tt, st') /\
    bucket st' = o :: bucket st /\
    results st'
      = mark_processed source_name (List.length raw) (obj_key o) (results st).
Proof.
  intros E N F.
  pose proof (process_source_cases rt env source_name source_config st) as C.
  rewrite E in C.
  assert (truthy (JList raw) = true) as T by (destruct raw; [now destruct N | reflexivity]).
  rewrite T in C. unfold stage_failure in F.
  pose proof (transform_data_keeps rt env source_name (JList raw) st) as K1.
  pose proof (transform_data_keeps_bucket rt env source_name (JList raw) st) as B1.
  pose proof (transform_loop_outcome rt env source_name raw 0%nat [] st) as O.
  destruct (transform_data rt env source_name (JList raw) st)
    as [[td | e1] st1] eqn:TD; cbn [snd] in K1, B1; [ | discriminate F].
  rewrite (transform_data_list_inv rt env _ _ _ _ _ TD) in O. cbn [fst] in O.
  destruct O as (new & -> & F2). cbn [app] in *.
  apply Forall2_length in F2.
  destruct (load_to_s3_cases rt env source_name new st1)
    as (o & _ & _ & _ & _ & _ & _ & L).
  rewrite L in C, F. destruct (put_object_error env o) as [e2 | ];
    [discriminate F | ].
  eexists. exists o. split; [exact C | ].
  unfold with_results. cbn [results bucket]. rewrite K1, B1, F2. auto.
Qed.

Lemma loaded_source_is_counted_witness :
  exists st' o,
    process_source Sample.runtime
      (Sample.apis_answer true Sample.text_two_records) "marketing"
      Sample.marketing_config boot = (Ok tt, st') /\
    bucket st' = o :: bucket boot /\
    results st'
      = mark_processed "marketing"
          (List.length [JDict [("id", JInt 1)]; JDict [("id", JInt 2)]])
          (obj_key o) (results boot).
Proof.
  apply (loaded_source_is_counted Sample.runtime
           (Sample.apis_answer true Sample.text_two_records) "marketing"
           Sample.marketing_config
           [JDict [("id", JInt 1)]; JDict [("id", JInt 2)]] boot).
  - vm_compute. reflexivity.
  - discriminate.
  - vm_compute. reflexivity.
Defined.

(** X16.  A source whose extraction delivers an empty value (an empty list,
    for instance a list cut by a [default_limit] of 0, an empty object, 0,
    the empty string) is treated like one that delivered [None]: its turn
    changes nothing, no file is written and no error is recorded. *)
Theorem empty_extraction_is_skipped rt env source_name source_config raw_data
    st :
  extract_data_safe rt env source_name source_config = Ok raw_data ->
  truthy raw_data = false ->
  process_source rt env source_name source_config st = (Ok tt, st).
Proof.
  intros E T.
  pose proof (process_source_cases rt env source_name source_config st) as C.
  rewrite E, T in C. exact C.
Qed.

Lemma empty_extraction_is_skipped_witness :
  extract_data_safe Sample.runtime
    (Sample.apis_answer true Sample.text_two_records) "inventory" limit_zero
    = Ok (JList []) /\
  process_source Sample.runtime
    (Sample.apis_answer true Sample.text_two_records) "inventory" limit_zero
    boot = (Ok tt, boot).
Proof.
  assert (extract_data_safe Sample.runtime
            (Sample.apis_answer true Sample.text_two_records) "inventory"
            limit_zero = Ok (JList [])) as E by (vm_compute; reflexivity).
  split; [exact E | ].
  apply (empty_extraction_is_skipped Sample.runtime
           (Sample.apis_answer true Sample.text_two_records) "inventory"
           limit_zero (JList []) boot E).
  reflexivity.
Defined.

(** X17.  When the secret holds an empty configuration (an empty object,
    null, an empty list) and the context is [None] or has a [request_id],
    the run is stopped before the source loop: [lambda_handler] returns
    status 500, the only error is
    "Fatal error: Failed to load configuration", no source is processed and
    nothing is written to the bucket.  With a context object that has no
    [request_id] the call raises the attribute error of line 59 before the
    configuration is read, and nothing is written either. *)
Theorem empty_configuration_is_fatal rt env event context :
  truthy (get_configuration rt env) = false ->
  match context with
  | ContextWithout class_name =>
      lambda_handler_on rt env event context
      = Raise (mkExn AttributeError
                 ("'" ++ class_name
                    ++ "' object has no attribute 'request_id'")) /\
      bucket (final_state_on rt env event context) = []
  | _ =>
      exists response,
        lambda_handler_on rt env event context = Ok response /\
        statusCode response = 500 /\
        errors (results (final_state_on rt env event context))
          = ["Fatal error: Failed to load configuration"] /\
        sources_processed (results (final_state_on rt env event context))
          = [] /\
        total_records (results (final_state_on rt env event context)) = 0 /\
        files_created (results (final_state_on rt env event context)) = [] /\
        bucket (final_state_on rt env event context) = []
  end.
Proof.
  intros T.
  assert (forall typed,
            exists response,
              lambda_handler rt env event typed = Ok response /\
              statusCode response = 500 /\
              errors (results (final_state rt env event typed))
                = ["Fatal error: Failed to load configuration"] /\
              sources_processed (results (final_state rt env event typed))
                = [] /\
              total_records (results (final_state rt env event typed)) = 0 /\
              files_created (results (final_state rt env event typed)) = [] /\
              bucket (final_state rt env event typed) = []) as H.
  { intros typed.
    assert (final_state rt env event typed
            = finished env (with_results
                              (mark_fatal (mkExn PlainException
                                             "Failed to load configuration"))
                              (started env typed))) as F.
    { rewrite final_state_eq. f_equal.
      unfold guarded, try_except, run_pipeline. rewrite T. reflexivity. }
    exists (response_of rt (final_results rt env event typed)). split.
    - rewrite lambda_handler_eq, T. reflexivity.
    - cbn [response_of statusCode]. rewrite final_results_state, F.
      repeat split; reflexivity. }
  destruct context as [ | class_name | c].
  - exact (H None).
  - split; reflexivity.
  - exact (H (Some c)).
Qed.

Lemma empty_configuration_is_fatal_witness :
  get_configuration Sample2.empty_secret_runtime Sample2.empty_secret
    = JDict [] /\
  exists response,
    lambda_handler_on Sample2.empty_secret_runtime Sample2.empty_secret JNull
      NoContext = Ok response /\
    statusCode response = 500 /\
    errors (results (final_state_on Sample2.empty_secret_runtime
                       Sample2.empty_secret JNull NoContext))
      = ["Fatal error: Failed to load configuration"] /\
    sources_processed
      (results (final_state_on Sample2.empty_secret_runtime
                  Sample2.empty_secret JNull NoContext)) = [] /\
    total_records
      (results (final_state_on Sample2.empty_secret_runtime
                  Sample2.empty_secret JNull NoContext)) = 0 /\
    files_created
      (results (final_state_on Sample2.empty_secret_runtime
                  Sample2.empty_secret JNull NoContext)) = [] /\
    bucket (final_state_on Sample2.empty_secret_runtime Sample2.empty_secret
              JNull NoContext) = [].
Proof.
  split; [reflexivity | ].
  apply (empty_configuration_is_fatal Sample2.empty_secret_runtime
           Sample2.empty_secret JNull NoContext).
  reflexivity.
Defined.

(** X18.  The execution summary is written inside the outer [try], before
    the run is closed.  Whenever the returned [success] is true, the last
    object written is the summary, under [metadata/executions/date=]; its
    key is the last entry of [files_created]; and what it records is the
    run as it stood then: [success] true, [duration_seconds] null although
    the returned result has a duration, and the files created without the
    summary itself. *)
Theorem summary_precedes_the_end rt env event context :
  success (final_results rt env event context) = true ->
  exists o rest summary listed duration,
    bucket (final_state rt env event context) = o :: rest /\
    files_created (final_results rt env event context)
      = (listed ++ [obj_key o])%list /\
    String.prefix "metadata/executions/date=" (obj_key o) = true /\
    obj_body o = json_dumps_indent rt (JDict summary) /\
    dict_get "success" summary = Some (JBool true) /\
    dict_get "duration_seconds" summary = Some JNull /\
    dict_get "files_created" summary = Some (JList (map JStr listed)) /\
    duration_seconds (final_results rt env event context) = Some duration.
Proof.
  rewrite final_results_state, final_state_eq.
  pose proof (guarded_cases rt env (get_configuration rt env)
                (started env context)) as G.
  destruct (data_sources_of (get_configuration rt env)) as [items | ] eqn:D.
  2:{ destruct G as (e & ->). cbn. discriminate. }
  destruct (process_sources_step rt env items (started env context))
    as (st1 & E1 & H1 & _).
  rewrite E1 in G. cbn [snd] in G.
  destruct H1 as (_ & _ & _ & Hd & Hs).
  cbn [started results initial_results success duration_seconds] in Hd, Hs.
  destruct (save_execution_summary_cases rt env _ items st1 D)
    as (o & summary & Hb & Sc & Du & Fc & Pk & Sv).
  rewrite Sv in G. destruct (put_object_error env o) as [e | ].
  { rewrite G. cbn. discriminate. }
  intros _. rewrite G.
  exists o, (bucket st1), summary, (files_created (results st1)).
  eexists. unfold finished, with_results, tick3.
  cbn [results bucket ticks set_end add_file_created files_created
       duration_seconds].
  rewrite Hs in Sc. rewrite Hd in Du. cbn [opt_json] in Du.
  repeat split; auto.
Qed.

Lemma summary_precedes_the_end_witness :
  success (final_results Sample.runtime
             (Sample.apis_answer true Sample.text_two_records) JNull None)
    = true /\
  exists o rest summary listed duration,
    bucket (final_state Sample.runtime
              (Sample.apis_answer true Sample.text_two_records) JNull None)
      = o :: rest /\
    files_created (final_results Sample.runtime
                     (Sample.apis_answer true Sample.text_two_records)
                     JNull None)
      = (listed ++ [obj_key o])%list /\
    String.prefix "metadata/executions/date=" (obj_key o) = true /\
    obj_body o = json_dumps_indent Sample.runtime (JDict summary) /\
    dict_get "success" summary = Some (JBool true) /\
    dict_get "duration_seconds" summary = Some JNull /\
    dict_get "files_created" summary = Some (JList (map JStr listed)) /\
    duration_seconds (final_results Sample.runtime
                        (Sample.apis_answer true Sample.text_two_records)
                        JNull None) = Some duration.
Proof.
  assert (success (final_results Sample.runtime
                     (Sample.apis_answer true Sample.text_two_records)
                     JNull None) = true) as S by (vm_compute; reflexivity).
  split; [exact S | ].
  exact (summary_precedes_the_end Sample.runtime
           (Sample.apis_answer true Sample.text_two_records) JNull None S).
Defined.

Section OrderFacts.

Variable rt : Runtime.
Variable env : Env.

Lemma process_source_appends source_name source_config st :
  exists b : bool,
    sources_processed (results (snd (process_source rt env source_name
                                       source_config st)))
    = (sources_processed (results st) ++ if b then [source_name] else [])%list.
Proof.
  pose proof (process_source_cases rt env source_name source_config st) as C.
  destruct (extract_data_safe rt env source_name source_config) as [raw | e];
    [ | contradiction].
  destruct (truthy raw).
  2:{ exists false. rewrite C. cbn. now rewrite app_nil_r. }
  pose proof (transform_data_keeps rt env source_name raw st) as K1.
  destruct (transform_data rt env source_name raw st) as [[td | e] st1];
    cbn [snd] in K1.
  2:{ exists false. rewrite C. cbn. rewrite K1. now rewrite app_nil_r. }
  pose proof (load_to_s3_keeps rt env source_name td st1) as K2.
  destruct (load_to_s3 rt env source_name td st1) as [[fp | e] st2];
    cbn [snd] in K2; rewrite C; cbn; rewrite K2, K1.
  - exists true. reflexivity.
  - exists false. now rewrite app_nil_r.
Qed.

Lemma process_sources_appends items :
  forall st,
  exists mask,
    sources_processed (results (snd (process_sources rt env items st)))
    = (sources_processed (results st) ++ pick mask (keys items))%list.
Proof.
  induction items as [ | [n c] rest IH]; intros st.
  - exists []. cbn. now rewrite app_nil_r.
  - cbn [process_sources].
    destruct (process_source_step rt env n c st) as (st1 & E1 & _).
    rewrite (bind_step_Ok _ _ _ _ _ E1).
    destruct (process_source_appends n c st) as (b & A).
    rewrite E1 in A. cbn [snd] in A.
    destruct (IH st1) as (mask & ->). rewrite A.
    exists (b :: mask). cbn [keys map fst pick].
    rewrite <- app_assoc. destruct b; reflexivity.
Qed.

Lemma pick_incl {A} (mask : list bool) : forall (l : list A) x,
  In x (pick mask l) -> In x l.
Proof.
  induction mask as [ | b mask IH]; intros [ | y l] x H; cbn in H;
    try contradiction.
  destruct b; [destruct H as [-> | H] | ]; [now left | right; auto | right; auto].
Qed.

Lemma pick_NoDup {A} (mask : list bool) : forall (l : list A),
  NoDup l -> NoDup (pick mask l).
Proof.
  induction mask as [ | b mask IH]; intros [ | y l] N; cbn; try constructor.
  inversion N as [ | ? ? Hy N']; subst.
  destruct b; [constructor | ]; auto.
  intros H. apply Hy. eapply pick_incl; exact H.
Qed.

(** A record whose projection raises stops the loop of [transform_data]. *)
Lemma transform_loop_stops source_name r :
  raises (add_payload rt source_name r []) = true ->
  forall records idx acc st,
    In r records ->
    raises (fst (transform_loop rt env source_name idx records acc st)) = true.
Proof.
  intros R. induction records as [ | x rest IH]; intros idx acc st I;
    [contradiction | ].
  cbn [transform_loop]. unfold bind at 1.
  destruct (py_encode source_name) as [[] | e0] eqn:En.
  2:{ now rewrite (transform_record_unencodable rt env _ _ _ _ _ En). }
  rewrite (transform_record_eq rt env _ _ _ _ En). cbv zeta.
  destruct (add_payload rt source_name x _) as [d | e] eqn:P; [ | reflexivity].
  destruct I as [-> | I]; [ | now apply IH].
  destruct (add_payload rt source_name r []) as [d' | e'] eqn:P';
    [discriminate R | ].
  rewrite (add_payload_independent rt _ _ _ _ _ P') in P. discriminate P.
Qed.

End OrderFacts.

(** X19.  With a usable configuration, [sources_processed] lists sources
    of the configuration in the order of the configuration, each at most
    once. *)
Theorem sources_processed_in_configuration_order rt env event context items :
  data_sources_of (get_configuration rt env) = Some items ->
  NoDup (keys items) ->
  exists mask,
    sources_processed (final_results rt env event context)
      = pick mask (keys items) /\
    NoDup (sources_processed (final_results rt env event context)).
Proof.
  intros D N. rewrite final_results_eq.
  pose proof (guarded_outcome rt env (get_configuration rt env)
                (started env context)) as G.
  rewrite D in G. cbv zeta in G. destruct G as [G _].
  unfold finished. cbn [results set_end sources_processed]. rewrite G.
  destruct (process_sources_appends rt env items (started env context))
    as (mask & ->).
  cbn [started results initial_results sources_processed app].
  exists mask. split; [reflexivity | now apply pick_NoDup].
Qed.

Lemma sources_processed_in_configuration_order_witness :
  data_sources_of (get_configuration Sample.runtime
                     (Sample.apis_answer true Sample.text_two_records))
    = Some Sample.default_sources /\
  NoDup (keys Sample.default_sources) /\
  exists mask,
    sources_processed
      (final_results Sample.runtime
         (Sample.apis_answer true Sample.text_two_records) JNull None)
      = pick mask (keys Sample.default_sources) /\
    NoDup (sources_processed
             (final_results Sample.runtime
                (Sample.apis_answer true Sample.text_two_records) JNull None)).
Proof.
  assert (NoDup (keys Sample.default_sources)) as N.
  { repeat constructor; cbn; intuition discriminate. }
  split; [reflexivity | ]. split; [exact N | ].
  apply (sources_processed_in_configuration_order Sample.runtime
           (Sample.apis_answer true Sample.text_two_records) JNull None
           Sample.default_sources); [reflexivity | exact N].
Defined.

(** X20.  There is no isolation between the records of a source: when the
    projection of one delivered record raises, the whole batch is lost.
    The turn of the source records one error entry, writes no object and
    leaves [sources_processed] and [total_records] as they were, whatever
    the other records are. *)
Theorem one_bad_record_loses_the_batch rt env source_name source_config raw r
    st :
  extract_data_safe rt env source_name source_config = Ok (JList raw) ->
  In r raw ->
  raises (add_payload rt source_name r []) = true ->
  exists e st',
    process_source rt env source_name source_config st = (Ok tt, st') /\
    results st' = add_error (source_error source_name e) (results st) /\
    bucket st' = bucket st.
Proof.
  intros E I R.
  pose proof (process_source_cases rt env source_name source_config st) as C.
  rewrite E in C.
  assert (truthy (JList raw) = true) as T by (destruct raw; [destruct I | reflexivity]).
  rewrite T in C.
  pose proof (transform_data_keeps rt env source_name (JList raw) st) as K1.
  pose proof (transform_data_keeps_bucket rt env source_name (JList raw) st) as B1.
  pose proof (transform_loop_stops rt env source_name r R raw 0%nat [] st I) as S.
  destruct (transform_data rt env source_name (JList raw) st)
    as [[td | e] st1] eqn:TD; cbn [snd] in K1, B1.
  - rewrite (transform_data_list_inv rt env _ _ _ _ _ TD) in S. discriminate S.
  - exists e. eexists. split; [exact C | ].
    unfold with_results. cbn [results bucket]. rewrite K1. auto.
Qed.

Lemma one_bad_record_loses_the_batch_witness :
  extract_data_safe Sample.runtime
    (Sample.apis_answer true Sample.text_products) "marketing"
    Sample.marketing_config = Ok (JList [JInt 1; JInt 2]) /\
  raises (add_payload Sample.runtime "marketing" (JInt 2) []) = true /\
  exists e st',
    process_source Sample.runtime
      (Sample.apis_answer true Sample.text_products) "marketing"
      Sample.marketing_config boot = (Ok tt, st') /\
    results st' = add_error (source_error "marketing" e) (results boot) /\
    bucket st' = bucket boot.
Proof.
  assert (extract_data_safe Sample.runtime
            (Sample.apis_answer true Sample.text_products) "marketing"
            Sample.marketing_config = Ok (JList [JInt 1; JInt 2])) as E
    by (vm_compute; reflexivity).
  split; [exact E | ]. split; [reflexivity | ].
  apply (one_bad_record_loses_the_batch Sample.runtime
           (Sample.apis_answer true Sample.text_products) "marketing"
           Sample.marketing_config [JInt 1; JInt 2] (JInt 2) boot E).
  - right. left. reflexivity.
  - reflexivity.
Defined.

(** X21.  The two client paths turn a parsed body into records in the
    same way, with one exception: for an object that has 'products' and
    neither 'results' nor 'data', requests returns the value under
    'products' and urllib3 the whole object in a one-element list. *)
Theorem clients_normalize_alike config data :
  match data with
  | JDict d =>
      if dict_has "results" d || dict_has "data" d
         || negb (dict_has "products" d)
      then normalize_urllib3 config data = normalize_requests config data
      else exists v, dict_get "products" d = Some v /\
                     normalize_requests config data = Ok v /\
                     normalize_urllib3 config data = Ok (JList [data])
  | _ => normalize_urllib3 config data = normalize_requests config data
  end.
Proof.
  destruct data as [ | | | | | | d]; try reflexivity.
  unfold normalize_urllib3, normalize_requests, dict_has.
  destruct (dict_get "results" d); [reflexivity | ].
  destruct (dict_get "data" d); [reflexivity | ].
  destruct (dict_get "products" d) as [v | ]; cbn; [ | reflexivity].
  exists v. repeat split.
Qed.

(** X22.  With a usable configuration, when every configured source is
    listed in [sources_processed] the run has no per-source error: [errors]
    is empty if [success] is true, and holds the fatal entry alone if the
    summary could not be written. *)
Theorem all_processed_means_no_source_error rt env event context items :
  data_sources_of (get_configuration rt env) = Some items ->
  List.length (sources_processed (final_results rt env event context))
    = List.length items ->
  if success (final_results rt env event context)
  then errors (final_results rt env event context) = []
  else exists e,
         errors (final_results rt env event context)
           = [String.append "Fatal error: " (exn_str e)].
Proof.
  intros D L. rewrite final_results_state, final_state_eq in *.
  destruct (guarded_books rt env (get_configuration rt env) context)
    as (_ & _ & E & A).
  specialize (A items D). revert L E A.
  unfold finished. cbn [results set_end errors success sources_processed].
  intros L E A. pose proof (filter_length_le (delivers rt env) items) as Fl.
  destruct (success _).
  - destruct (errors _); [reflexivity | cbn in A; lia].
  - destruct E as (earlier & e & X & _). rewrite X in A |- *.
    rewrite length_app in A. cbn in A.
    destruct earlier; [exists e; reflexivity | cbn in A; lia].
Qed.

Lemma all_processed_means_no_source_error_witness :
  data_sources_of (get_configuration Sample.runtime
                     (Sample.apis_answer true Sample.text_two_records))
    = Some Sample.default_sources /\
  sources_processed
    (final_results Sample.runtime
       (Sample.apis_answer true Sample.text_two_records) JNull None)
    = ["marketing"; "sales"; "crm"] /\
  if success (final_results Sample.runtime
                (Sample.apis_answer true Sample.text_two_records) JNull None)
  then errors (final_results Sample.runtime
                 (Sample.apis_answer true Sample.text_two_records) JNull None)
       = []
  else exists e,
         errors (final_results Sample.runtime
                   (Sample.apis_answer true Sample.text_two_records)
                   JNull None)
           = [String.append "Fatal error: " (exn_str e)].
Proof.
  split; [reflexivity | ]. split; [vm_compute; reflexivity | ].
  apply (all_processed_means_no_source_error Sample.runtime
           (Sample.apis_answer true Sample.text_two_records) JNull None
           Sample.default_sources).
  - reflexivity.
  - vm_compute. reflexivity.
Defined.
